(** * IPeeps: the response transformer, the transport adapter and the
      presentation adapters

    A shallow embedding of [src/data_processor.py], [src/api_client.py],
    [src/app.py], [src/output_formatter.py] and the lookups of
    [src/main.py].  Python values are the JSON-shaped values that
    [response.json()] hands to the program; a raised exception is an
    explicit result; printing and the outbound HTTP request are events of a
    trace; the files written are an explicit state.  The part of Python's
    [json] library that the export calls is modelled in [Json]. *)

From Stdlib Require Import String Ascii List ZArith Bool.
From Stdlib Require Import DecimalString DecimalZ PrimFloat.
From Stdlib Require Import FloatOps FloatAxioms SpecFloat.
From Stdlib Require Import Lia.
Import ListNotations.
Set Warnings "-register-all".
Open Scope list_scope.
Open Scope string_scope.

(** ** Python values, exceptions and the builtins the program uses *)

Module Py.

(** What [response.json()] can return: [None], a bool, an int, a float, a
    str, a list, or a dict with str keys.  A dict keeps its insertion order
    (it matters to [str] and to the exports), so it is an association list;
    [get] and [in] see the first binding of a key. *)
Inductive pyval : Type :=
| PNone
| PBool (b : bool)
| PInt (z : Z)
| PFloat (f : float)
| PStr (s : string)
| PList (l : list pyval)
| PDict (d : list (string * pyval)).

Definition dict := list (string * pyval).

(** The exceptions that can occur in the two modules. *)
Inductive exn : Type :=
| TypeError
| AttributeError
| IndexError
| ValueError (msg : string)
| Timeout (msg : string)
| ConnectionError (msg : string)
| RequestException (msg : string).

(** A computation that returns or raises. *)
Inductive res (A : Type) : Type :=
| Ok (a : A)
| Raise (e : exn).
Arguments Ok {A} a.
Arguments Raise {A} e.

Definition bind {A B} (m : res A) (f : A -> res B) : res B :=
  match m with
  | Ok a => f a
  | Raise e => Raise e
  end.

Declare Scope res_scope.
Delimit Scope res_scope with res.
Notation "x <- m ;; k" := (bind m (fun x => k))
  (at level 61, m at next level, right associativity) : res_scope.

(** The parts of the interpreter that the sources do not contain: [repr] of
    a float (shortest round-tripping decimal) and [repr] of a str (quoting
    and escaping). *)
Class Runtime : Type := {
  float_repr : float -> string;
  str_repr : string -> string
}.

(** [bool(v)]. *)
Definition truthy (v : pyval) : bool :=
  match v with
  | PNone => false
  | PBool b => b
  | PInt z => negb (z =? 0)%Z
  | PFloat f => negb (PrimFloat.eqb f 0%float)
  | PStr s => negb (s =? "")
  | PList l => match l with [] => false | _ => true end
  | PDict d => match d with [] => false | _ => true end
  end.

(** [isinstance(v, str)]. *)
Definition isinstance_str (v : pyval) : bool :=
  match v with
  | PStr _ => true
  | _ => false
  end.

(** The first binding of [k] in a dict. *)
Fixpoint lookup (k : string) (d : dict) : option pyval :=
  match d with
  | [] => None
  | (k', v) :: d' => if k' =? k then Some v else lookup k d'
  end.

(** [o.get(k, default)]: only a dict has the method. *)
Definition get (o : pyval) (k : string) (default : pyval) : res pyval :=
  match o with
  | PDict d =>
      Ok (match lookup k d with
          | Some v => v
          | None => default
          end)
  | _ => Raise AttributeError
  end.

(** [needle in hay] for two strs: substring search. *)
Fixpoint str_contains (needle hay : string) : bool :=
  prefix needle hay ||
  match hay with
  | EmptyString => false
  | String _ hay' => str_contains needle hay'
  end.

(** [PStr needle == v]. *)
Definition str_eq_val (needle : string) (v : pyval) : bool :=
  match v with
  | PStr s => needle =? s
  | _ => false
  end.

(** [needle in o] for a str [needle]: substring of a str, element of a
    list, key of a dict; anything else is not iterable. *)
Definition contains (needle : string) (o : pyval) : res bool :=
  match o with
  | PStr s => Ok (str_contains needle s)
  | PList l => Ok (existsb (str_eq_val needle) l)
  | PDict d => Ok (existsb (fun kv => needle =? fst kv) d)
  | _ => Raise TypeError
  end.

(** [str(z)] for an int. *)
Definition str_of_int (z : Z) : string :=
  NilZero.string_of_int (Z.to_int z).

Section Repr.
Context {R : Runtime}.

(** [repr(v)]. *)
Fixpoint repr (v : pyval) : string :=
  match v with
  | PNone => "None"
  | PBool true => "True"
  | PBool false => "False"
  | PInt z => str_of_int z
  | PFloat f => float_repr f
  | PStr s => str_repr s
  | PList l => "[" ++ String.concat ", " (map repr l) ++ "]"
  | PDict d =>
      "{" ++ String.concat ", "
               (map (fun kv => str_repr (fst kv) ++ ": " ++ repr (snd kv)) d)
          ++ "}"
  end.

(** [str(v)]: a str is itself, everything else is its [repr]. *)
Definition str (v : pyval) : string :=
  match v with
  | PStr s => s
  | _ => repr v
  end.
End Repr.

End Py.

Import Py.

(** ** src/data_processor.py *)

Module DataProcessor.
Local Open Scope res_scope.

Section WithRuntime.
Context {R : Runtime}.

Definition required_fields : list string := ["ip_address"].

(** The loop of [validate_response] over [required_fields]. *)
Fixpoint check_required (fields : list string) (data : pyval) : res bool :=
  match fields with
  | [] => Ok true
  | field :: rest =>
      present <- contains field data ;;
      if negb present then Ok false else check_required rest data
  end.

Definition validate_response (data : pyval) : res bool :=
  if negb (truthy data) then Ok false
  else check_required required_fields data.

Definition _determine_ip_version (ip_address : pyval) : res string :=
  colon <- contains ":" ip_address ;;
  if colon then Ok "IPv6"
  else
    dot <- contains "." ip_address ;;
    if dot then Ok "IPv4" else Ok "Unknown".

Definition _check_proxy (security : pyval) : res pyval :=
  get security "is_proxy" (PBool false).

Definition _check_tor (security : pyval) : res pyval :=
  get security "is_tor" (PBool false).

Definition _check_relay (security : pyval) : res pyval :=
  get security "is_relay" (PBool false).

(** [threats.append(name)] under [if flag:]. *)
Definition append_if (flag : pyval) (name : string) (threats : list string)
  : list string :=
  if truthy flag then (threats ++ [name])%list else threats.

Definition _assess_threat_level (security : pyval) : res string :=
  let threats := [] in
  vpn <- get security "is_vpn" (PBool false) ;;
  let threats := append_if vpn "VPN" threats in
  proxy <- get security "is_proxy" (PBool false) ;;
  let threats := append_if proxy "Proxy" threats in
  tor <- get security "is_tor" (PBool false) ;;
  let threats := append_if tor "Tor" threats in
  relay <- get security "is_relay" (PBool false) ;;
  let threats := append_if relay "Relay" threats in
  if (List.length threats =? 0)%nat then Ok "Clean"
  else if (List.length threats =? 1)%nat then
    match nth_error threats 0 with
    | Some first => Ok ("Low (" ++ first ++ " detected)")
    | None => Raise IndexError
    end
  else Ok ("Medium (Multiple: " ++ String.concat ", " threats ++ ")").

Definition extract_basic_info (data : pyval) : res pyval :=
  ip <- get data "ip_address" (PStr "N/A") ;;
  ip' <- get data "ip_address" (PStr "") ;;
  version <- _determine_ip_version ip' ;;
  city <- get data "city" (PStr "N/A") ;;
  region <- get data "region" (PStr "N/A") ;;
  country <- get data "country" (PStr "N/A") ;;
  country_code <- get data "country_code" (PStr "N/A") ;;
  continent <- get data "continent" (PStr "N/A") ;;
  postal_code <- get data "postal_code" (PStr "N/A") ;;
  latitude <- get data "latitude" (PStr "N/A") ;;
  longitude <- get data "longitude" (PStr "N/A") ;;
  Ok (PDict [ ("IP Address", ip);
              ("IP Version", PStr version);
              ("City", city);
              ("Region", region);
              ("Country", country);
              ("Country Code", country_code);
              ("Continent", continent);
              ("Postal Code", postal_code);
              ("Latitude", PStr (str latitude));
              ("Longitude", PStr (str longitude)) ]).

Definition extract_connection_info (data : pyval) : res pyval :=
  connection <- get data "connection" (PDict []) ;;
  isp <- get connection "isp_name" (PStr "N/A") ;;
  org <- get connection "organization_name" (PStr "N/A") ;;
  asn <- get connection "autonomous_system_number" (PStr "N/A") ;;
  asn_org <- get connection "autonomous_system_organization" (PStr "N/A") ;;
  ctype <- get connection "connection_type" (PStr "N/A") ;;
  Ok (PDict [ ("ISP", isp);
              ("Organization", org);
              ("ASN", PStr (str asn));
              ("ASN Organization", asn_org);
              ("Connection Type", ctype) ]).

Definition extract_timezone_info (data : pyval) : res pyval :=
  timezone <- get data "timezone" (PDict []) ;;
  name <- get timezone "name" (PStr "N/A") ;;
  abbreviation <- get timezone "abbreviation" (PStr "N/A") ;;
  gmt_offset <- get timezone "gmt_offset" (PStr "N/A") ;;
  current_time <- get timezone "current_time" (PStr "N/A") ;;
  is_dst <- get timezone "is_dst" (PStr "N/A") ;;
  Ok (PDict [ ("Timezone Name", name);
              ("Abbreviation", abbreviation);
              ("GMT Offset", PStr (str gmt_offset));
              ("Current Time", current_time);
              ("Is DST", PStr (str is_dst)) ]).

Definition extract_security_info (data : pyval) : res pyval :=
  security <- get data "security" (PDict []) ;;
  vpn <- get security "is_vpn" (PBool false) ;;
  proxy <- _check_proxy security ;;
  tor <- _check_tor security ;;
  relay <- _check_relay security ;;
  threat <- _assess_threat_level security ;;
  Ok (PDict [ ("Is VPN", vpn);
              ("Is Proxy", proxy);
              ("Is Tor", tor);
              ("Is Relay", relay);
              ("Threat Level", PStr threat) ]).

Definition extract_currency_info (data : pyval) : res pyval :=
  currency <- get data "currency" (PDict []) ;;
  name <- get currency "currency_name" (PStr "N/A") ;;
  code <- get currency "currency_code" (PStr "N/A") ;;
  symbol <- get currency "currency_symbol" (PStr "N/A") ;;
  Ok (PDict [ ("Currency Name", name);
              ("Currency Code", code);
              ("Currency Symbol", symbol) ]).

Definition extract_flag_info (data : pyval) : res pyval :=
  flag <- get data "flag" (PDict []) ;;
  emoji <- get flag "emoji" (PStr "N/A") ;;
  unicode <- get flag "unicode" (PStr "N/A") ;;
  png <- get flag "png" (PStr "N/A") ;;
  svg <- get flag "svg" (PStr "N/A") ;;
  Ok (PDict [ ("Flag Emoji", emoji);
              ("Flag Unicode", unicode);
              ("Flag PNG", png);
              ("Flag SVG", svg) ]).

Definition process_all_data (data : pyval) : res pyval :=
  valid <- validate_response data ;;
  if negb valid then Ok (PDict [])
  else
    basic <- extract_basic_info data ;;
    connection <- extract_connection_info data ;;
    timezone <- extract_timezone_info data ;;
    security <- extract_security_info data ;;
    currency <- extract_currency_info data ;;
    flag <- extract_flag_info data ;;
    Ok (PDict [ ("basic", basic);
                ("connection", connection);
                ("timezone", timezone);
                ("security", security);
                ("currency", currency);
                ("flag", flag) ]).
End WithRuntime.
End DataProcessor.

(** ** src/api_client.py *)

Module AbstractAPIClient.

(** What an invocation does to the outside world, in order: a line printed
    on stdout, or one [requests.get(url, timeout=...)]. *)
Inductive event : Type :=
| Print (line : string)
| HttpGet (url : string) (timeout : Z).

(** The two members of a [requests] response that the client reads;
    [response.json()] returns the parsed body or raises. *)
Record response : Type := {
  status_code : Z;
  json : res pyval
}.

(** A computation that returns or raises, and leaves a trace. *)
Definition io (A : Type) : Type := (res A * list event)%type.

Definition io_ret {A} (a : A) : io A := (Ok a, []).

Definition io_bind {A B} (m : io A) (f : A -> io B) : io B :=
  match m with
  | (Ok a, t) => let (r, t') := f a in (r, t ++ t')%list
  | (Raise e, t) => (Raise e, t)
  end.

Declare Scope io_scope.
Delimit Scope io_scope with io.
Notation "x <- m ;; k" := (io_bind m (fun x => k))
  (at level 61, m at next level, right associativity) : io_scope.
Notation "m ;; k" := (io_bind m (fun _ => k))
  (at level 61, right associativity) : io_scope.
Local Open Scope io_scope.

Definition lift {A} (m : res A) : io A := (m, []).

(** [print(line)], for a line that stdout can encode.  A console that
    cannot encode every line is [on_console] below. *)
Definition print (line : string) : io unit := (Ok tt, [Print line]).

(** [try: body except ...: handler]; a handler re-raises what no clause
    matches. *)
Definition try_except {A} (body : io A) (handler : exn -> io A) : io A :=
  match body with
  | (Ok a, t) => (Ok a, t)
  | (Raise e, t) => let (r, t') := handler e in (r, t ++ t')%list
  end.

(** The instance attributes set by [__init__]. *)
Record t : Type := {
  api_key : string;
  base_url : string;
  timeout : Z
}.

(** [__init__], given [os.getenv]: a missing or empty key is fatal. *)
Definition __init__ (getenv : string -> option string) : res t :=
  match getenv "ABSTRACT_API_KEY" with
  | Some (String c k) =>
      Ok {| api_key := String c k;
            base_url := "https://ipgeolocation.abstractapi.com/v1/";
            timeout := 10 |}
  | _ =>
      Raise (ValueError
        "ABSTRACT_API_KEY not found in environment variables. Please check your .env file.")
  end.

Section WithNetwork.
Context {R : Runtime}.

(** The network: what [requests.get] returns or raises for a URL and a
    timeout.  A raised exception is given by the first [except] clause
    that matches its class. *)
Variable network : string -> Z -> res response.

Definition requests_get (url : string) (timeout : Z) : io response :=
  (network url timeout, [HttpGet url timeout]).

(** The three [except] clauses shared by both lookups. *)
Definition handler (e : exn) : io pyval :=
  match e with
  | Timeout _ =>
      print "Error: Request timed out. Please check your internet connection." ;;
      io_ret PNone
  | ConnectionError _ =>
      print "Error: Could not connect to API. Please check your internet connection." ;;
      io_ret PNone
  | RequestException msg =>
      print ("Error: An unexpected error occurred: " ++ msg) ;;
      io_ret PNone
  | _ => (Raise e, [])
  end.

Definition get_current_ip_info (self : t) : io pyval :=
  try_except
    (let url := base_url self ++ "?api_key=" ++ api_key self in
     response <- requests_get url (timeout self) ;;
     if (status_code response =? 200)%Z then
       lift (json response)
     else if (status_code response =? 401)%Z then
       print "Error: Invalid API key. Please check your credentials." ;;
       io_ret PNone
     else if (status_code response =? 429)%Z then
       print "Error: API rate limit exceeded. Please try again later." ;;
       io_ret PNone
     else
       print ("Error: API returned status code "
              ++ str_of_int (status_code response)) ;;
       io_ret PNone)
    handler.

Definition get_specific_ip_info (self : t) (ip_address : pyval) : io pyval :=
  try_except
    (if negb (truthy ip_address) || negb (isinstance_str ip_address) then
       print "Error: Invalid IP address format." ;;
       io_ret PNone
     else
       let url := base_url self ++ "?api_key=" ++ api_key self
                  ++ "&ip_address=" ++ str ip_address in
       response <- requests_get url (timeout self) ;;
       if (status_code response =? 200)%Z then
         lift (json response)
       else if (status_code response =? 422)%Z then
         print ("Error: Invalid IP address format: " ++ str ip_address) ;;
         io_ret PNone
       else if (status_code response =? 401)%Z then
         print "Error: Invalid API key. Please check your credentials." ;;
         io_ret PNone
       else if (status_code response =? 429)%Z then
         print "Error: API rate limit exceeded. Please try again later." ;;
         io_ret PNone
       else
         print ("Error: API returned status code "
                ++ str_of_int (status_code response)) ;;
         io_ret PNone)
    handler.
End WithNetwork.

(** [str(e)]: the message of an exception that was raised with one.  The
    text of an exception that the interpreter raises itself (TypeError,
    AttributeError, IndexError) is not in the sources and is left to
    [interpreter_text], which sees the class of the exception and not the
    object that it names; no property below states that text. *)
Definition exn_str (interpreter_text : exn -> string) (e : exn) : string :=
  match e with
  | ValueError msg | Timeout msg | ConnectionError msg
  | RequestException msg => msg
  | TypeError | AttributeError | IndexError => interpreter_text e
  end.

Section Connectivity.
Variable interpreter_text : exn -> string.
Variable network : string -> Z -> res response.

Definition test_connection (self : t) : io bool :=
  try_except
    (let url := base_url self ++ "?api_key=" ++ api_key self in
     response <- requests_get network url 5 ;;
     if (status_code response =? 200)%Z then
       print "✓ API connection successful!" ;;
       io_ret true
     else
       print ("✗ API connection failed with status code: "
              ++ str_of_int (status_code response)) ;;
       io_ret false)
    (fun e =>
       print ("✗ Connection test failed: " ++ exn_str interpreter_text e) ;;
       io_ret false).
End Connectivity.

End AbstractAPIClient.

(** ** src/app.py *)

Module App.
Import AbstractAPIClient.
Local Open Scope io_scope.

(** What a route returns: the mapping handed to [jsonify] and the status
    code (200 when the route gives none). *)
Definition reply : Type := (pyval * Z)%type.

(** The module's start: the client, or None when the credential is
    missing. *)
Definition startup (getenv : string -> option string) : io (option t) :=
  match __init__ getenv with
  | Ok client => io_ret (Some client)
  | Raise (ValueError msg) =>
      print ("Error initializing API client: " ++ msg) ;;
      io_ret None
  | Raise e => (Raise e, [])
  end.

Section Routes.
Context {R : Runtime}.
Variable interpreter_text : exn -> string.

(** [s.strip()] on a str; the set of whitespace characters is the
    interpreter's. *)
Variable strip : string -> string.

Variable network : string -> Z -> res response.

(** The global [api_client]. *)
Variable api_client : option t.

(** [v.strip()]: only a str has the method. *)
Definition method_strip (v : pyval) : res pyval :=
  match v with
  | PStr s => Ok (PStr (strip s))
  | _ => Raise AttributeError
  end.

Definition not_initialized : reply :=
  (PDict [("error", PStr "API client not initialized. Check your API key.")],
   500%Z).

(** The [except Exception as e] clause of every route. *)
Definition on_exception (e : exn) : io reply :=
  io_ret
    (PDict [("error",
             PStr ("An error occurred: " ++ exn_str interpreter_text e))],
     500%Z).

Definition get_current_ip : io reply :=
  match api_client with
  | None => io_ret not_initialized
  | Some client =>
      try_except
        (raw_data <- get_current_ip_info network client ;;
         if truthy raw_data then
           processed_data <- lift (DataProcessor.process_all_data raw_data) ;;
           if truthy processed_data then
             io_ret (PDict [ ("success", PBool true);
                             ("data", processed_data) ], 200%Z)
           else
             io_ret (PDict [("error", PStr "Failed to process API response")],
                     500%Z)
         else
           io_ret (PDict [("error", PStr "Failed to retrieve IP information")],
                   500%Z))
        on_exception
  end.

(** [request_json] is what [request.get_json()] returns or raises. *)
Definition lookup_ip (request_json : res pyval) : io reply :=
  match api_client with
  | None => io_ret not_initialized
  | Some client =>
      try_except
        (data <- lift request_json ;;
         address <- lift (get data "ip_address" (PStr "")) ;;
         ip_address <- lift (method_strip address) ;;
         if negb (truthy ip_address) then
           io_ret (PDict [("error", PStr "No IP address provided")], 400%Z)
         else
           raw_data <- get_specific_ip_info network client ip_address ;;
           if truthy raw_data then
             processed_data <- lift (DataProcessor.process_all_data raw_data) ;;
             if truthy processed_data then
               io_ret (PDict [ ("success", PBool true);
                               ("data", processed_data) ], 200%Z)
             else
               io_ret
                 (PDict [("error", PStr "Failed to process API response")],
                  500%Z)
           else
             io_ret
               (PDict [("error",
                        PStr ("Failed to retrieve information for "
                              ++ str ip_address))],
                500%Z))
        on_exception
  end.

Definition test_connection : io reply :=
  match api_client with
  | None => io_ret not_initialized
  | Some client =>
      try_except
        (success <- AbstractAPIClient.test_connection interpreter_text
                      network client ;;
         if (success : bool) then
           io_ret (PDict [ ("success", PBool true);
                           ("message", PStr "API connection successful!") ],
                   200%Z)
         else
           io_ret (PDict [ ("success", PBool false);
                           ("message", PStr "API connection failed") ],
                   500%Z))
        on_exception
  end.
End Routes.

End App.

(** ** The json library, as the export uses it *)

Module Json.

(** Modelled from the spec: the exported file is written by [json.dump] of
    Python's standard library and read back by [json.load]; neither is in
    the sources.  The encoder and the decoder below follow the
    documentation of the library and its reference code ([json/encoder.py],
    [json/decoder.py], [json/scanner.py]) for the arguments that
    [save_to_file] passes, [indent=4] and [ensure_ascii=False].  A str is
    its UTF-8 text, which is what the file holds. *)

(** *** json.encoder *)

(** Modelled from the spec: the double quote that delimits a JSON string;
    the sources hold no part of the [json] library. *)
Definition dquote : ascii := "034"%char.

(** Modelled from the spec: the backslash that starts an escape in a JSON
    string. *)
Definition bslash : ascii := "092"%char.





Section Encoder.
Context {R : Runtime}.





End Encoder.

(** *** json.decoder and json.scanner *)

(** Modelled from the spec: [WHITESPACE] of [json.decoder]: space, tab,
    newline and carriage return. *)
Definition is_ws (c : ascii) : bool :=
  (c =? " ")%char || (c =? "009")%char || (c =? "010")%char
  || (c =? "013")%char.

(** Modelled from the spec: [WHITESPACE.match(s, end).end()] of
    [json.decoder]: what is left after the whitespace. *)
Fixpoint skip_ws (s : string) : string :=
  match s with
  | String c s' => if is_ws c then skip_ws s' else s
  | "" => ""
  end.

(** Modelled from the spec: a decimal digit of [NUMBER_RE]. *)
Definition is_digit (c : ascii) : bool :=
  (48 <=? nat_of_ascii c)%nat && (nat_of_ascii c <=? 57)%nat.

(** Modelled from the spec: the longest run of digits at the start of a
    text, and what follows it. *)
Fixpoint span_digits (s : string) : string * string :=
  match s with
  | String c s' =>
      if is_digit c
      then let (d, r) := span_digits s' in (String c d, r)
      else ("", s)
  | "" => ("", "")
  end.

(** Modelled from the spec: one digit or more. *)
Definition match_digits (s : string) : option (string * string) :=
  match span_digits s with
  | ("", _) => None
  | (d, r) => Some (d, r)
  end.

(** Modelled from the spec: the group [0|[1-9][0-9]*] of [NUMBER_RE]: a zero
    alone, or digits that start with another digit. *)
Definition match_natural (s : string) : option (string * string) :=
  match s with
  | String c r => if (c =? "0")%char then Some ("0", r) else match_digits s
  | "" => None
  end.

(** Modelled from the spec: the first group of [NUMBER_RE] in
    [json.scanner]: an optional minus sign and the natural number. *)
Definition match_integer (s : string) : option (string * string) :=
  match s with
  | String c t =>
      if (c =? "-")%char
      then match match_natural t with
           | Some (d, r) => Some (String c d, r)
           | None => None
           end
      else match_natural s
  | "" => None
  end.

(** Modelled from the spec: the second group of [NUMBER_RE]: a period and
    one digit or more. *)
Definition match_frac (s : string) : option (string * string) :=
  match s with
  | String c s' =>
      if (c =? ".")%char
      then match match_digits s' with
           | Some (d, r) => Some (String c d, r)
           | None => None
           end
      else None
  | "" => None
  end.

(** Modelled from the spec: the optional sign of an exponent. *)
Definition match_sign (s : string) : string * string :=
  match s with
  | String c t =>
      if (c =? "-")%char || (c =? "+")%char then (String c "", t) else ("", s)
  | "" => ("", "")
  end.

(** Modelled from the spec: the third group of [NUMBER_RE]: e or E, an
    optional sign, and one digit or more. *)
Definition match_exp (s : string) : option (string * string) :=
  match s with
  | String c s' =>
      if (c =? "e")%char || (c =? "E")%char then
        let (sign, s'') := match_sign s' in
        match match_digits s'' with
        | Some (d, r) => Some (String c (sign ++ d), r)
        | None => None
        end
      else None
  | "" => None
  end.

(** Modelled from the spec: [NUMBER_RE.match] of [json.scanner]: the integer
    part, the optional fraction and the optional exponent, and what follows
    the match. *)
Definition match_number (s : string)
  : option (string * option string * option string * string) :=
  match match_integer s with
  | None => None
  | Some (integer, s1) =>
      let (frac, s2) := match match_frac s1 with
                        | Some (f, r) => (Some f, r)
                        | None => (None, s1)
                        end in
      let (exp, s3) := match match_exp s2 with
                       | Some (e, r) => (Some e, r)
                       | None => (None, s2)
                       end in
      Some (integer, frac, exp, s3)
  end.

(** Modelled from the spec: [int(text)] for the text of the integer part. *)
Definition parse_int (text : string) : Z :=
  match NilZero.int_of_string text with
  | Some i => Z.of_int i
  | None => 0
  end.

(** Modelled from the spec: the value of a hexadecimal digit. *)
Definition hex_value (c : ascii) : option N :=
  let n := N_of_ascii c in
  if is_digit c then Some (n - 48)%N
  else if (97 <=? n)%N && (n <=? 102)%N then Some (n - 87)%N
  else if (65 <=? n)%N && (n <=? 70)%N then Some (n - 55)%N
  else None.

(** Modelled from the spec: [_decode_uXXXX] of [json.decoder]: the number
    that four hexadecimal digits write. *)
Definition _decode_uXXXX (h1 h2 h3 h4 : ascii) : option N :=
  match hex_value h1, hex_value h2, hex_value h3, hex_value h4 with
  | Some a, Some b, Some c, Some d =>
      Some (((a * 16 + b) * 16 + c) * 16 + d)%N
  | _, _, _, _ => None
  end.

(** Modelled from the spec: [chr(uni)], as the UTF-8 text of the code point;
    a surrogate on its own is written in the same three-byte form. *)
Definition chr (uni : N) : string :=
  let byte n := ascii_of_N n in
  (if uni <? 128 then String (byte uni) ""
   else if uni <? 2048 then
     String (byte (192 + uni / 64)) (String (byte (128 + uni mod 64)) "")
   else if uni <? 65536 then
     String (byte (224 + uni / 4096))
       (String (byte (128 + (uni / 64) mod 64))
          (String (byte (128 + uni mod 64)) ""))
   else
     String (byte (240 + uni / 262144))
       (String (byte (128 + (uni / 4096) mod 64))
          (String (byte (128 + (uni / 64) mod 64))
             (String (byte (128 + uni mod 64)) ""))))%N.

(** Modelled from the spec: [BACKSLASH] of [json.decoder]: the character
    that follows a backslash, and what it stands for. *)
Definition BACKSLASH (esc : ascii) : option ascii :=
  if (esc =? dquote)%char then Some dquote
  else if (esc =? bslash)%char then Some bslash
  else if (esc =? "/")%char then Some "/"%char
  else if (esc =? "b")%char then Some "008"%char
  else if (esc =? "f")%char then Some "012"%char
  else if (esc =? "n")%char then Some "010"%char
  else if (esc =? "r")%char then Some "013"%char
  else if (esc =? "t")%char then Some "009"%char
  else None.

(** Modelled from the spec: [chunks.append] of [py_scanstring], seen from
    the end. *)
Definition prepend (chunk : string) (r : option (string * string))
  : option (string * string) :=
  match r with
  | Some (s, rest) => Some (chunk ++ s, rest)
  | None => None
  end.

(** Modelled from the spec: [json.decoder.py_scanstring] in strict mode, on
    the text that follows the opening quote: the str up to the closing
    quote, and what follows it; [None] is a JSONDecodeError. *)
Fixpoint scanstring (s : string) : option (string * string) :=
  match s with
  | "" => None
  | String c s1 =>
      if (c =? dquote)%char then Some ("", s1)
      else if (c =? bslash)%char then
        match s1 with
        | "" => None
        | String esc s2 =>
            if (esc =? "u")%char then
              match s2 with
              | String h1 (String h2 (String h3 (String h4 s3))) =>
                  match _decode_uXXXX h1 h2 h3 h4 with
                  | None => None
                  | Some uni =>
                      if ((55296 <=? uni) && (uni <=? 56319))%N then
                        match s3 with
                        | String b (String u (String g1 (String g2
                            (String g3 (String g4 s4))))) =>
                            if (b =? bslash)%char && (u =? "u")%char then
                              match _decode_uXXXX g1 g2 g3 g4 with
                              | None => None
                              | Some uni2 =>
                                  if ((56320 <=? uni2)
                                      && (uni2 <=? 57343))%N
                                  then
                                    prepend
                                      (chr (65536
                                            + ((uni - 55296) * 1024
                                               + (uni2 - 56320)))%N)
                                      (scanstring s4)
                                  else prepend (chr uni) (scanstring s3)
                              end
                            else prepend (chr uni) (scanstring s3)
                        | _ => prepend (chr uni) (scanstring s3)
                        end
                      else prepend (chr uni) (scanstring s3)
                  end
              | _ => None
              end
            else
              match BACKSLASH esc with
              | Some char => prepend (String char "") (scanstring s2)
              | None => None
              end
        end
      else if (nat_of_ascii c <? 32)%nat then None
      else prepend (String c "") (scanstring s1)
  end.

(** Modelled from the spec: [d[k] = v] on a dict that keeps its insertion
    order: a key that is set again keeps its place. *)
Fixpoint dict_set (k : string) (v : pyval) (d : dict) : dict :=
  match d with
  | [] => [(k, v)]
  | (k', v') :: d' =>
      if k' =? k then (k', v) :: d' else (k', v') :: dict_set k v d'
  end.

(** Modelled from the spec: [dict(pairs)] at the end of [JSONObject]. *)
Definition dict_of_pairs (pairs : list (string * pyval)) : dict :=
  fold_left (fun d kv => dict_set (fst kv) (snd kv) d) pairs [].

(** Modelled from the spec: [s[n:]]. *)
Fixpoint drop (n : nat) (s : string) : string :=
  match n, s with
  | S n', String _ s' => drop n' s'
  | _, _ => s
  end.

Section Decoder.
(** Modelled from the spec: [float(text)] for the text of a JSON number
    that has a fraction or an exponent, the [parse_float] of the decoder. *)
Variable parse_float : string -> float.

(** Modelled from the spec: the end of [_scan_once] in [json.scanner]: a
    number, read by [int] when it has neither fraction nor exponent and by
    [float] otherwise, or one of the three names NaN, Infinity and
    -Infinity. *)
Definition scan_number (s : string) : option (pyval * string) :=
  match match_number s with
  | Some (integer, frac, exp, rest) =>
      match frac, exp with
      | None, None => Some (PInt (parse_int integer), rest)
      | _, _ =>
          Some (PFloat (parse_float
                          (integer
                           ++ match frac with Some f => f | None => "" end
                           ++ match exp with Some e => e | None => "" end)),
                rest)
      end
  | None =>
      if prefix "NaN" s then Some (PFloat nan, drop 3 s)
      else if prefix "Infinity" s then Some (PFloat infinity, drop 8 s)
      else if prefix "-Infinity" s then Some (PFloat neg_infinity, drop 9 s)
      else None
  end.

(** Modelled from the spec: the loop of [json.decoder.JSONArray]: values
    separated by commas, up to the closing bracket. *)
Fixpoint array_values (scan_once : string -> option (pyval * string))
  (fuel : nat) (s : string) : option (list pyval * string) :=
  match fuel with
  | O => None
  | S fuel' =>
      match scan_once s with
      | None => None
      | Some (value, s1) =>
          match skip_ws s1 with
          | String nextchar s2 =>
              if (nextchar =? "]")%char then Some ([value], s2)
              else if (nextchar =? ",")%char then
                match array_values scan_once fuel' (skip_ws s2) with
                | Some (values, s3) => Some (value :: values, s3)
                | None => None
                end
              else None
          | "" => None
          end
      end
  end.

(** Modelled from the spec: [json.decoder.JSONArray], on the text that
    follows the opening bracket. *)
Definition JSONArray (scan_once : string -> option (pyval * string))
  (fuel : nat) (s : string) : option (pyval * string) :=
  match skip_ws s with
  | String nextchar s1 =>
      if (nextchar =? "]")%char then Some (PList [], s1)
      else
        match array_values scan_once fuel (String nextchar s1) with
        | Some (values, s2) => Some (PList values, s2)
        | None => None
        end
  | "" => None
  end.

(** Modelled from the spec: the loop of [json.decoder.JSONObject], on the
    text that follows the opening quote of a key: members separated by
    commas, up to the closing brace. *)
Fixpoint object_pairs (scan_once : string -> option (pyval * string))
  (fuel : nat) (s : string) : option (list (string * pyval) * string) :=
  match fuel with
  | O => None
  | S fuel' =>
      match scanstring s with
      | None => None
      | Some (key, s1) =>
          match skip_ws s1 with
          | String colon s2 =>
              if (colon =? ":")%char then
                match scan_once (skip_ws s2) with
                | None => None
                | Some (value, s3) =>
                    match skip_ws s3 with
                    | String nextchar s4 =>
                        if (nextchar =? "}")%char
                        then Some ([(key, value)], s4)
                        else if (nextchar =? ",")%char then
                          match skip_ws s4 with
                          | String q s5 =>
                              if (q =? dquote)%char then
                                match object_pairs scan_once fuel' s5 with
                                | Some (pairs, s6) =>
                                    Some ((key, value) :: pairs, s6)
                                | None => None
                                end
                              else None
                          | "" => None
                          end
                        else None
                    | "" => None
                    end
                end
              else None
          | "" => None
          end
      end
  end.

(** Modelled from the spec: [json.decoder.JSONObject], on the text that
    follows the opening brace. *)
Definition JSONObject (scan_once : string -> option (pyval * string))
  (fuel : nat) (s : string) : option (pyval * string) :=
  match skip_ws s with
  | String nextchar s1 =>
      if (nextchar =? "}")%char then Some (PDict [], s1)
      else if (nextchar =? dquote)%char then
        match object_pairs scan_once fuel s1 with
        | Some (pairs, s2) => Some (PDict (dict_of_pairs pairs), s2)
        | None => None
        end
      else None
  | "" => None
  end.

(** Modelled from the spec: [_scan_once] of [json.scanner.py_make_scanner].
    The recursion is on [fuel], which bounds the nesting and the number of
    items of a container; [loads] gives it the length of the text, of which
    every value takes one character at least. *)
Fixpoint scan_once (fuel : nat) (s : string) : option (pyval * string) :=
  match fuel with
  | O => None
  | S fuel' =>
      match s with
      | "" => None
      | String nextchar s1 =>
          if (nextchar =? dquote)%char then
            match scanstring s1 with
            | Some (text, rest) => Some (PStr text, rest)
            | None => None
            end
          else if (nextchar =? "{")%char then
            JSONObject (scan_once fuel') fuel' s1
          else if (nextchar =? "[")%char then
            JSONArray (scan_once fuel') fuel' s1
          else if (nextchar =? "n")%char && prefix "null" s then
            Some (PNone, drop 4 s)
          else if (nextchar =? "t")%char && prefix "true" s then
            Some (PBool true, drop 4 s)
          else if (nextchar =? "f")%char && prefix "false" s then
            Some (PBool false, drop 5 s)
          else scan_number s
      end
  end.

End Decoder.

End Json.

(** ** src/output_formatter.py: the console views *)

Module OutputFormatter.
Import AbstractAPIClient.
Local Open Scope io_scope.

(** The constants of [colorama] that the program uses. *)
Class Colorama : Type := {
  Fore_CYAN : string;
  Fore_GREEN : string;
  Fore_LIGHTBLACK_EX : string;
  Fore_LIGHTCYAN_EX : string;
  Fore_LIGHTGREEN_EX : string;
  Fore_LIGHTMAGENTA_EX : string;
  Fore_LIGHTYELLOW_EX : string;
  Fore_RED : string;
  Fore_WHITE : string;
  Fore_YELLOW : string;
  Style_BRIGHT : string;
  Style_RESET_ALL : string
}.

(** The newline character. *)
Definition nl : string := String (ascii_of_nat 10) "".

(** [s * n]. *)
Fixpoint repeat_str (s : string) (n : nat) : string :=
  match n with
  | O => ""
  | S n' => s ++ repeat_str s n'
  end.

(** [s.center(width)]: a str that is long enough is returned as it is; the
    odd space goes to the left when the width is odd. *)
Definition center (s : string) (width : nat) : string :=
  if (width <=? String.length s)%nat then s
  else
    let marg := width - String.length s in
    let left := marg / 2 + Nat.land (Nat.land marg width) 1 in
    repeat_str " " left ++ s ++ repeat_str " " (marg - left).

(** The format [{key:.<width}]: the key, then dots up to the width. *)
Definition ljust_dots (key : string) (width : nat) : string :=
  key ++ repeat_str "." (width - String.length key).

(** [if k in o: f(o[k])].  A mapping gives the value of the key; a str or a
    list that contains [k] cannot be indexed by it. *)
Definition if_in_then (k : string) (o : pyval) (f : pyval -> io unit)
  : io unit :=
  match o with
  | PDict d =>
      match lookup k d with
      | Some v => f v
      | None => io_ret tt
      end
  | _ =>
      present <- lift (contains k o) ;;
      if (present : bool) then (Raise TypeError, []) else io_ret tt
  end.

Section Views.
Context {R : Runtime} {C : Colorama}.

(** [datetime.now().strftime(format)]. *)
Variable now : string -> string.

(** [s.upper()]. *)
Variable upper : string -> string.

(** [tabulate(rows, headers=..., tablefmt=...)]. *)
Variable tabulate : list (list string) -> list string -> string -> string.

Definition print_header (title : string) : io unit :=
  let width := 80 in
  print (nl ++ Fore_CYAN ++ repeat_str "=" width) ;;
  print (Fore_CYAN ++ Style_BRIGHT ++ center title width) ;;
  print (Fore_CYAN ++ repeat_str "=" width ++ Style_RESET_ALL).

Definition print_section_header (section_name : string) : io unit :=
  print (nl ++ Fore_YELLOW ++ Style_BRIGHT ++ "▶ " ++ section_name
         ++ Style_RESET_ALL) ;;
  print (Fore_YELLOW ++ repeat_str "-" 60 ++ Style_RESET_ALL).

Definition print_key_value (key : string) (value : pyval) (color : string)
  : io unit :=
  print (Fore_LIGHTBLACK_EX ++ ljust_dots key 25 ++ " " ++ color
         ++ str value ++ Style_RESET_ALL).

Definition print_basic_info (data : pyval) : io unit :=
  print_section_header "BASIC INFORMATION" ;;
  version <- lift (get data "IP Version" PNone) ;;
  let ip_color :=
    if str_eq_val "IPv4" version then Fore_GREEN else Fore_CYAN in
  ip <- lift (get data "IP Address" (PStr "N/A")) ;;
  print_key_value "IP Address" ip (ip_color ++ Style_BRIGHT) ;;
  version' <- lift (get data "IP Version" (PStr "N/A")) ;;
  print_key_value "IP Version" version' Fore_LIGHTMAGENTA_EX ;;
  city <- lift (get data "City" (PStr "N/A")) ;;
  print_key_value "City" city Fore_WHITE ;;
  region <- lift (get data "Region" (PStr "N/A")) ;;
  print_key_value "Region" region Fore_WHITE ;;
  country <- lift (get data "Country" (PStr "N/A")) ;;
  print_key_value "Country" country Fore_LIGHTCYAN_EX ;;
  country_code <- lift (get data "Country Code" (PStr "N/A")) ;;
  print_key_value "Country Code" country_code Fore_WHITE ;;
  continent <- lift (get data "Continent" (PStr "N/A")) ;;
  print_key_value "Continent" continent Fore_WHITE ;;
  postal_code <- lift (get data "Postal Code" (PStr "N/A")) ;;
  print_key_value "Postal Code" postal_code Fore_WHITE ;;
  latitude <- lift (get data "Latitude" (PStr "N/A")) ;;
  longitude <- lift (get data "Longitude" (PStr "N/A")) ;;
  print_key_value "Coordinates"
    (PStr (str latitude ++ ", " ++ str longitude)) Fore_LIGHTYELLOW_EX.

Definition print_connection_info (data : pyval) : io unit :=
  print_section_header "CONNECTION INFORMATION" ;;
  isp <- lift (get data "ISP" (PStr "N/A")) ;;
  print_key_value "ISP" isp Fore_LIGHTGREEN_EX ;;
  organization <- lift (get data "Organization" (PStr "N/A")) ;;
  print_key_value "Organization" organization Fore_WHITE ;;
  asn <- lift (get data "ASN" (PStr "N/A")) ;;
  print_key_value "ASN" asn Fore_LIGHTMAGENTA_EX ;;
  asn_organization <- lift (get data "ASN Organization" (PStr "N/A")) ;;
  print_key_value "ASN Organization" asn_organization Fore_WHITE ;;
  connection_type <- lift (get data "Connection Type" (PStr "N/A")) ;;
  print_key_value "Connection Type" connection_type Fore_LIGHTYELLOW_EX.

Definition print_timezone_info (data : pyval) : io unit :=
  print_section_header "TIMEZONE INFORMATION" ;;
  name <- lift (get data "Timezone Name" (PStr "N/A")) ;;
  print_key_value "Timezone" name Fore_LIGHTCYAN_EX ;;
  abbreviation <- lift (get data "Abbreviation" (PStr "N/A")) ;;
  print_key_value "Abbreviation" abbreviation Fore_WHITE ;;
  gmt_offset <- lift (get data "GMT Offset" (PStr "N/A")) ;;
  print_key_value "GMT Offset" gmt_offset Fore_LIGHTYELLOW_EX ;;
  current_time <- lift (get data "Current Time" (PStr "N/A")) ;;
  print_key_value "Current Time" current_time Fore_LIGHTGREEN_EX ;;
  is_dst <- lift (get data "Is DST" (PStr "N/A")) ;;
  print_key_value "Daylight Saving" is_dst Fore_WHITE.

(** [Fore.RED if flag else Fore.GREEN] and [YES if flag else NO]. *)
Definition flag_color (flag : pyval) : string :=
  if truthy flag then Fore_RED else Fore_GREEN.

Definition flag_text (flag : pyval) : pyval :=
  if truthy flag then PStr "YES ⚠" else PStr "NO ✓".

Definition print_security_info (data : pyval) : io unit :=
  print_section_header "SECURITY ANALYSIS" ;;
  vpn <- lift (get data "Is VPN" PNone) ;;
  let vpn_color := flag_color vpn in
  proxy <- lift (get data "Is Proxy" PNone) ;;
  let proxy_color := flag_color proxy in
  tor <- lift (get data "Is Tor" PNone) ;;
  let tor_color := flag_color tor in
  relay <- lift (get data "Is Relay" PNone) ;;
  let relay_color := flag_color relay in
  vpn' <- lift (get data "Is VPN" PNone) ;;
  print_key_value "VPN Detected" (flag_text vpn')
    (vpn_color ++ Style_BRIGHT) ;;
  proxy' <- lift (get data "Is Proxy" PNone) ;;
  print_key_value "Proxy Detected" (flag_text proxy')
    (proxy_color ++ Style_BRIGHT) ;;
  tor' <- lift (get data "Is Tor" PNone) ;;
  print_key_value "Tor Detected" (flag_text tor')
    (tor_color ++ Style_BRIGHT) ;;
  relay' <- lift (get data "Is Relay" PNone) ;;
  print_key_value "Relay Detected" (flag_text relay')
    (relay_color ++ Style_BRIGHT) ;;
  threat_level <- lift (get data "Threat Level" (PStr "Unknown")) ;;
  clean <- lift (contains "Clean" threat_level) ;;
  threat_color <-
    (if (clean : bool) then io_ret Fore_GREEN
     else
       low <- lift (contains "Low" threat_level) ;;
       if (low : bool) then io_ret Fore_YELLOW else io_ret Fore_RED) ;;
  print_key_value "Overall Threat Level" threat_level
    (threat_color ++ Style_BRIGHT).

Definition print_currency_info (data : pyval) : io unit :=
  print_section_header "CURRENCY INFORMATION" ;;
  name <- lift (get data "Currency Name" (PStr "N/A")) ;;
  print_key_value "Currency" name Fore_LIGHTGREEN_EX ;;
  code <- lift (get data "Currency Code" (PStr "N/A")) ;;
  print_key_value "Currency Code" code Fore_WHITE ;;
  symbol <- lift (get data "Currency Symbol" (PStr "N/A")) ;;
  print_key_value "Symbol" symbol Fore_LIGHTYELLOW_EX.

Definition print_flag_info (data : pyval) : io unit :=
  print_section_header "FLAG INFORMATION" ;;
  flag_emoji <- lift (get data "Flag Emoji" (PStr "N/A")) ;;
  print (Fore_LIGHTBLACK_EX ++ "Flag Emoji.............. " ++ Fore_WHITE
         ++ str flag_emoji ++ " " ++ Style_RESET_ALL) ;;
  unicode <- lift (get data "Flag Unicode" (PStr "N/A")) ;;
  print_key_value "Unicode" unicode Fore_WHITE.

Definition display_all_info (processed_data : pyval) : io unit :=
  print_header "IP ADDRESS INFORMATION REPORT" ;;
  if_in_then "basic" processed_data print_basic_info ;;
  if_in_then "connection" processed_data print_connection_info ;;
  if_in_then "timezone" processed_data print_timezone_info ;;
  if_in_then "security" processed_data print_security_info ;;
  if_in_then "currency" processed_data print_currency_info ;;
  if_in_then "flag" processed_data print_flag_info ;;
  print (nl ++ Fore_CYAN ++ repeat_str "=" 80 ++ Style_RESET_ALL) ;;
  print (Fore_LIGHTBLACK_EX ++ "Report generated at: "
         ++ now "%Y-%m-%d %H:%M:%S" ++ Style_RESET_ALL ++ nl).

(** The rows that [display_table_format] makes of one category. *)
Definition category_rows (category : string) (data : pyval)
  : list (list string) :=
  match data with
  | PDict fields =>
      [Fore_YELLOW ++ upper category ++ Style_RESET_ALL; ""; ""]
      :: map (fun kv => [""; fst kv; str (snd kv)]) fields
  | _ => []
  end.

Definition display_table_format (processed_data : pyval) : io unit :=
  print_header "IP ADDRESS INFORMATION (TABLE VIEW)" ;;
  match processed_data with
  | PDict categories =>
      let table_data :=
        flat_map (fun kv => category_rows (fst kv) (snd kv)) categories in
      print (tabulate table_data ["Category"; "Field"; "Value"] "grid") ;;
      print ""
  | _ => (Raise AttributeError, [])
  end.

Definition print_error (message : string) : io unit :=
  print (nl ++ Fore_RED ++ Style_BRIGHT ++ "✗ ERROR: " ++ message
         ++ Style_RESET_ALL ++ nl).

Definition print_success (message : string) : io unit :=
  print (nl ++ Fore_GREEN ++ Style_BRIGHT ++ "✓ " ++ message
         ++ Style_RESET_ALL ++ nl).

Definition print_warning (message : string) : io unit :=
  print (nl ++ Fore_YELLOW ++ Style_BRIGHT ++ "⚠ WARNING: " ++ message
         ++ Style_RESET_ALL ++ nl).
End Views.



Section Exports.
Context {R : Runtime} {C : Colorama}.

(** [datetime.now().strftime(format)], and what
    [open(filename, 'w', encoding='utf-8')] does: [None] when the file is
    opened, or the text of the exception that it raises. *)
Variable now : string -> string.
Variable open_ : string -> option string.

(** A write that cannot encode its text raises UnicodeEncodeError:
    [encode_error text] is the text of that exception, and [written text]
    is what has reached the file by then. *)
Variable encode_error : string -> string.
Variable written : string -> string.

End Exports.

End OutputFormatter.

(** ** src/main.py: the lookups and views of the interactive front end *)

Module IPInfoApp.
Import AbstractAPIClient.
Import OutputFormatter.
Local Open Scope io_scope.

(** The attributes of the application object; [last_processed_data] is
    [None] as long as the attribute is not set. *)
Record app : Type := {
  api_client : AbstractAPIClient.t;
  last_processed_data : option pyval;
  running : bool
}.

Definition set_last_processed_data (self : app) (v : pyval) : app :=
  {| api_client := api_client self;
     last_processed_data := Some v;
     running := running self |}.

(** [not hasattr(self, 'last_processed_data') or
    not self.last_processed_data]. *)
Definition no_data (self : app) : bool :=
  match last_processed_data self with
  | None => true
  | Some v => negb (truthy v)
  end.

Section Methods.
Context {R : Runtime} {C : Colorama}.
Variable now : string -> string.
Variable upper : string -> string.
Variable tabulate : list (list string) -> list string -> string -> string.
Variable network : string -> Z -> res response.

(** The method returns the application object as it leaves it. *)
Definition get_current_ip_info (self : app) : io app :=
  print (nl ++ Fore_CYAN ++ "Fetching your current IP information..."
         ++ Style_RESET_ALL) ;;
  raw_data <- AbstractAPIClient.get_current_ip_info network
                (api_client self) ;;
  if truthy raw_data then
    processed <- lift (DataProcessor.process_all_data raw_data) ;;
    let self := set_last_processed_data self processed in
    if truthy processed then
      display_all_info now processed ;;
      print_success "Information retrieved successfully!" ;;
      io_ret self
    else
      print_error "Failed to process API response." ;;
      io_ret self
  else
    print_error "Failed to retrieve IP information." ;;
    io_ret self.

Definition display_table_format (self : app) : io unit :=
  if no_data self then
    print_warning
      "No data available. Please fetch IP information first (Option 1 or 2)."
  else
    match last_processed_data self with
    | Some v => OutputFormatter.display_table_format upper tabulate v
    | None => io_ret tt
    end.
End Methods.

End IPInfoApp.

(** * Specification-side definitions *)

Import DataProcessor.
Import AbstractAPIClient.

(** A runtime for the concrete runs below; they print no float and take the
    [repr] of no str that needs escaping. *)
Definition example_runtime : Runtime :=
  {| float_repr := fun _ => "0.0";
     str_repr := fun s => "'" ++ s ++ "'" |}.

(** ** Dicts *)

(** [d.get(k, default)] on a dict. *)
Definition getd (d : dict) (k : string) (default : pyval) : pyval :=
  match lookup k d with
  | Some v => v
  | None => default
  end.

Definition has_key (k : string) (d : dict) : bool :=
  match lookup k d with
  | Some _ => true
  | None => false
  end.

Definition is_dict (v : pyval) : bool :=
  match v with
  | PDict _ => true
  | _ => false
  end.

(** The values [in] applies to. *)
Definition is_container (v : pyval) : bool :=
  match v with
  | PStr _ | PList _ | PDict _ => true
  | _ => false
  end.

(** The characters of a str. *)
Definition chars (s : string) : list ascii := list_ascii_of_string s.

(** ** The threat level *)

(** A flag of the security group, absent meaning false. *)
Definition flag_set (security : dict) (k : string) : bool :=
  truthy (getd security k (PBool false)).

(** The names of the flags that are set, in the order VPN, Proxy, Tor,
    Relay. *)
Definition set_flags (security : dict) : list string :=
  map fst
    (filter snd
       [ ("VPN", flag_set security "is_vpn");
         ("Proxy", flag_set security "is_proxy");
         ("Tor", flag_set security "is_tor");
         ("Relay", flag_set security "is_relay") ]).

(** How many of the four flags are set. *)
Definition flag_count (security : dict) : nat :=
  List.length
    (filter (fun b : bool => b)
       [ flag_set security "is_vpn"; flag_set security "is_proxy";
         flag_set security "is_tor"; flag_set security "is_relay" ]).

(** The label of a list of set flags. *)
Definition threat_label (names : list string) : string :=
  match names with
  | [] => "Clean"
  | [name] => "Low (" ++ name ++ " detected)"
  | _ => "Medium (Multiple: " ++ String.concat ", " names ++ ")"
  end.

(** ** Categories and their rows *)

(** A row of a category: the output label, the raw key it is read from, and
    whether the value goes through [str]. *)
Record field : Type := {
  label : string;
  key : string;
  stringified : bool
}.

Definition basic_fields : list field :=
  [ {| label := "City"; key := "city"; stringified := false |};
    {| label := "Region"; key := "region"; stringified := false |};
    {| label := "Country"; key := "country"; stringified := false |};
    {| label := "Country Code"; key := "country_code"; stringified := false |};
    {| label := "Continent"; key := "continent"; stringified := false |};
    {| label := "Postal Code"; key := "postal_code"; stringified := false |};
    {| label := "Latitude"; key := "latitude"; stringified := true |};
    {| label := "Longitude"; key := "longitude"; stringified := true |} ].

Definition connection_fields : list field :=
  [ {| label := "ISP"; key := "isp_name"; stringified := false |};
    {| label := "Organization"; key := "organization_name";
       stringified := false |};
    {| label := "ASN"; key := "autonomous_system_number";
       stringified := true |};
    {| label := "ASN Organization"; key := "autonomous_system_organization";
       stringified := false |};
    {| label := "Connection Type"; key := "connection_type";
       stringified := false |} ].

Definition timezone_fields : list field :=
  [ {| label := "Timezone Name"; key := "name"; stringified := false |};
    {| label := "Abbreviation"; key := "abbreviation"; stringified := false |};
    {| label := "GMT Offset"; key := "gmt_offset"; stringified := true |};
    {| label := "Current Time"; key := "current_time"; stringified := false |};
    {| label := "Is DST"; key := "is_dst"; stringified := true |} ].

Definition security_flags : list field :=
  [ {| label := "Is VPN"; key := "is_vpn"; stringified := false |};
    {| label := "Is Proxy"; key := "is_proxy"; stringified := false |};
    {| label := "Is Tor"; key := "is_tor"; stringified := false |};
    {| label := "Is Relay"; key := "is_relay"; stringified := false |} ].

Definition currency_fields : list field :=
  [ {| label := "Currency Name"; key := "currency_name";
       stringified := false |};
    {| label := "Currency Code"; key := "currency_code";
       stringified := false |};
    {| label := "Currency Symbol"; key := "currency_symbol";
       stringified := false |} ].

Definition flag_fields : list field :=
  [ {| label := "Flag Emoji"; key := "emoji"; stringified := false |};
    {| label := "Flag Unicode"; key := "unicode"; stringified := false |};
    {| label := "Flag PNG"; key := "png"; stringified := false |};
    {| label := "Flag SVG"; key := "svg"; stringified := false |} ].

(** The five nested groups of a raw response. *)
Definition group_keys : list string :=
  ["connection"; "timezone"; "security"; "currency"; "flag"].

Definition basic_labels : list string :=
  "IP Address" :: "IP Version" :: map label basic_fields.

Definition security_labels : list string :=
  (map label security_flags ++ ["Threat Level"])%list.

Definition sentinel : pyval := PStr "N/A".

(** The group of a raw response, absent meaning the empty mapping. *)
Definition group (raw : dict) (g : string) : pyval := getd raw g (PDict []).

(** The shape the extraction relies on and never checks: the address, when
    present, is a str (or another container), and each group, when present,
    is a mapping. *)
Definition address_ok (raw : dict) : bool :=
  is_container (getd raw "ip_address" (PStr "")).

Definition groups_ok (raw : dict) : bool :=
  forallb (fun g => is_dict (group raw g)) group_keys.

Definition well_shaped (raw : dict) : bool :=
  address_ok raw && groups_ok raw.

(** A category whose every row holds [v]. *)
Definition constant_rows (fields : list field) (v : pyval) : dict :=
  map (fun f => (label f, v)) fields.

(** The field [l] of the category [category] of an output. *)
Definition field_of (out : pyval) (category l : string) : option pyval :=
  match out with
  | PDict categories =>
      match lookup category categories with
      | Some (PDict fields) => lookup l fields
      | _ => None
      end
  | _ => None
  end.

(** An output with the six categories, each with its labels. *)
Definition six_categories (out : pyval) : Prop :=
  exists b c t s cu f,
    out = PDict [ ("basic", PDict b); ("connection", PDict c);
                  ("timezone", PDict t); ("security", PDict s);
                  ("currency", PDict cu); ("flag", PDict f) ] /\
    map fst b = basic_labels /\
    map fst c = map label connection_fields /\
    map fst t = map label timezone_fields /\
    map fst s = security_labels /\
    map fst cu = map label currency_fields /\
    map fst f = map label flag_fields.

Section Projection.
Context {R : Runtime}.

(** One row read from [source]: the value under the row's key, or [default]
    when the key is absent. *)
Definition read (source : dict) (default : pyval) (f : field)
  : string * pyval :=
  let v := getd source (key f) default in
  (label f, if stringified f then PStr (str v) else v).

Definition project (fields : list field) (source : dict) (default : pyval)
  : dict :=
  map (read source default) fields.

(** Every field of every category but the address itself is the sentinel,
    and nothing is raised. *)
Definition all_but_address_sentinel (raw : pyval) : Prop :=
  exists out,
    process_all_data raw = Ok out /\
    forall category l v,
      field_of out category l = Some v -> l <> "IP Address" -> v = sentinel.

End Projection.

(** The four security flags of a raw response are booleans where the
    security group binds them. *)
Definition boolean_flags (raw : dict) : Prop :=
  forall sec, group raw "security" = PDict sec ->
    forall f, In f security_flags ->
      exists b, getd sec (key f) (PBool false) = PBool b.

(** The raw response of the end-to-end scenario. *)
Definition sample_response : dict :=
  [ ("ip_address", PStr "8.8.8.8");
    ("city", PStr "Mountain View");
    ("connection",
     PDict [ ("isp_name", PStr "Google LLC");
             ("autonomous_system_number", PInt 15169) ]);
    ("security",
     PDict [ ("is_vpn", PBool false); ("is_proxy", PBool false);
             ("is_tor", PBool false); ("is_relay", PBool false) ]) ].

(** What the transformer makes of [sample_response]. *)
Definition sample_output : pyval :=
  Eval vm_compute in
    match process_all_data (R := example_runtime) (PDict sample_response) with
    | Ok out => out
    | Raise _ => PNone
    end.

(** ** Equal raw responses *)










(** ** The transport adapter: network calls and failure reasons *)

(** The outbound network calls of a trace. *)
Definition is_http_get (e : event) : bool :=
  match e with
  | HttpGet _ _ => true
  | Print _ => false
  end.

Definition network_calls (trace : list event) : nat :=
  List.length (filter is_http_get trace).

(** A network on which every request raises [e]. *)
Definition raises (e : exn) : string -> Z -> res response :=
  fun _ _ => Raise e.

Inductive failure : Type :=
| Unauthorized
| UnprocessableAddress
| RateLimited
| GenericServerError (status : Z).

(** The line printed for a failure; [address] is the address looked up. *)
Definition message (f : failure) (address : string) : string :=
  match f with
  | Unauthorized => "Error: Invalid API key. Please check your credentials."
  | UnprocessableAddress => "Error: Invalid IP address format: " ++ address
  | RateLimited => "Error: API rate limit exceeded. Please try again later."
  | GenericServerError status =>
      "Error: API returned status code " ++ str_of_int status
  end.

(** The failure a non-200 status stands for, on each path. *)
Definition classify_current (status : Z) : failure :=
  if (status =? 401)%Z then Unauthorized
  else if (status =? 429)%Z then RateLimited
  else GenericServerError status.

Definition classify_specific (status : Z) : failure :=
  if (status =? 401)%Z then Unauthorized
  else if (status =? 422)%Z then UnprocessableAddress
  else if (status =? 429)%Z then RateLimited
  else GenericServerError status.

Definition current_url (self : t) : string :=
  base_url self ++ "?api_key=" ++ api_key self.

Definition specific_url (self : t) (address : string) : string :=
  base_url self ++ "?api_key=" ++ api_key self ++ "&ip_address=" ++ address.

(** The classes that the [except] clauses of the lookups name:
    [requests.exceptions.Timeout], [ConnectionError] and
    [RequestException]. *)
Definition is_requests_exception (e : exn) : bool :=
  match e with
  | Timeout _ | ConnectionError _ | RequestException _ => true
  | _ => false
  end.

(** A network that answers every request with [r]. *)
Definition answers (r : response) : string -> Z -> res response :=
  fun _ _ => Ok r.

(** A response with the given status code and an empty JSON object as its
    body. *)
Definition with_status (code : Z) : response :=
  {| status_code := code; json := Ok (PDict []) |}.

(** The value a lookup returns tells the status code of a failed request. *)
Definition returns_status_code
  (lookup_with : (string -> Z -> res response) -> io pyval) : Prop :=
  exists code_of : pyval -> Z,
    forall r, status_code r <> 200%Z ->
      exists v, fst (lookup_with (answers r)) = Ok v /\
                code_of v = status_code r.

(** The client of the test suite. *)
Definition test_client : t :=
  {| api_key := "test_api_key_12345";
     base_url := "https://ipgeolocation.abstractapi.com/v1/";
     timeout := 10 |}.

(** ** What the transformer reads *)

(** The top-level keys the transformer reads, and all the keys it reads at
    the top level, the groups included. *)
Definition top_level_keys : list string :=
  "ip_address" :: map key basic_fields.

Definition used_keys : list string := (top_level_keys ++ group_keys)%list.

(** Two dicts that bind the keys of [keys] alike. *)
Definition agree_on (keys : list string) (d1 d2 : dict) : Prop :=
  forall k, In k keys -> lookup k d1 = lookup k d2.

(** The groups whose rows default to the sentinel, with their rows. *)
Definition group_tables : list (string * list field) :=
  [ ("connection", connection_fields); ("timezone", timezone_fields);
    ("currency", currency_fields); ("flag", flag_fields) ].

(** What a row shows of a value that is present. *)
Definition rendered {R : Runtime} (f : field) (v : pyval) : pyval :=
  if stringified f then PStr (str v) else v.

(** ** Replies of the web routes *)

(** The reply of a failed request: one error message. *)
Definition is_error (body : pyval) : Prop :=
  exists msg, body = PDict [("error", PStr msg)].

(** The reply of a successful lookup: the six categories as data. *)
Definition is_success (body : pyval) : Prop :=
  exists data,
    body = PDict [("success", PBool true); ("data", data)] /\
    six_categories data.

(** Whether the network answers the connectivity check with status 200. *)
Definition reachable (network : string -> Z -> res response) (self : t)
  : bool :=
  match network (current_url self) 5%Z with
  | Ok r => (status_code r =? 200)%Z
  | Raise _ => false
  end.

(** Stand-ins for the concrete runs: a [strip] that removes the spaces at
    both ends, which is what [str.strip] does to the addresses used below,
    and the interpreter's text of its own exceptions. *)
Fixpoint lstrip_spaces (l : list ascii) : list ascii :=
  match l with
  | " "%char :: l' => lstrip_spaces l'
  | _ => l
  end.

Definition example_strip (s : string) : string :=
  string_of_list_ascii
    (rev (lstrip_spaces (rev (lstrip_spaces (list_ascii_of_string s))))).

Definition example_text (e : exn) : string :=
  match e with
  | TypeError => "argument of type 'NoneType' is not iterable"
  | AttributeError => "'NoneType' object has no attribute 'get'"
  | IndexError => "list index out of range"
  | _ => ""
  end.

(** ** The console views *)

Import OutputFormatter.

(** The line [print_key_value] prints. *)
Definition key_value_line {R : Runtime} {C : Colorama}
  (key : string) (value : pyval) (color : string) : string :=
  Fore_LIGHTBLACK_EX ++ ljust_dots key 25 ++ " " ++ color ++ str value
  ++ Style_RESET_ALL.

(** The text and the colour of a flag in the security view. *)
Definition yes_no (flag : bool) : pyval :=
  PStr (if flag then "YES ⚠" else "NO ✓").

Definition alarm {C : Colorama} (flag : bool) : string :=
  if flag then Fore_RED else Fore_GREEN.

(** The colour of the threat level, by the number of flags set. *)
Definition threat_color {C : Colorama} (count : nat) : string :=
  match count with
  | 0 => Fore_GREEN
  | 1 => Fore_YELLOW
  | _ => Fore_RED
  end.

Definition is_print (e : event) : bool := negb (is_http_get e).

(** The console.  Python's [print] raises UnicodeEncodeError, a ValueError,
    when stdout cannot encode the text it is given, and writes nothing of
    it.  [accepts] tells the lines that stdout can encode.  A view catches
    nothing, so its run stops at the first line that is refused:
    [refused accepts trace] is that line, with the events before it. *)
Definition printable (accepts : string -> bool) (e : event) : bool :=
  match e with
  | Print line => accepts line
  | HttpGet _ _ => true
  end.

Fixpoint refused (accepts : string -> bool) (trace : list event)
  : option (list event * string) :=
  match trace with
  | [] => None
  | e :: rest =>
      match e with
      | Print line =>
          if accepts line
          then match refused accepts rest with
               | Some (before, l) => Some (e :: before, l)
               | None => None
               end
          else Some ([], line)
      | HttpGet _ _ =>
          match refused accepts rest with
          | Some (before, l) => Some (e :: before, l)
          | None => None
          end
      end
  end.

(** The run of a computation that catches nothing on such a console;
    [encode_error line] is the exception that [print] raises for [line]. *)
Definition on_console {A} (accepts : string -> bool)
  (encode_error : string -> exn) (m : io A) : io A :=
  match refused accepts (snd m) with
  | Some (before, line) => (Raise (encode_error line), before)
  | None => m
  end.

(** A console that encodes ASCII only. *)
Definition ascii_only (line : string) : bool :=
  forallb (fun c => (nat_of_ascii c <? 128)%nat) (chars line).

(** Stand-ins for the concrete runs: ANSI colour codes written without
    their escape character, a fixed clock, and a table that only counts its
    rows. *)
Definition example_colorama : Colorama :=
  {| Fore_CYAN := "[36m"; Fore_GREEN := "[32m";
     Fore_LIGHTBLACK_EX := "[90m"; Fore_LIGHTCYAN_EX := "[96m";
     Fore_LIGHTGREEN_EX := "[92m"; Fore_LIGHTMAGENTA_EX := "[95m";
     Fore_LIGHTYELLOW_EX := "[93m"; Fore_RED := "[31m";
     Fore_WHITE := "[37m"; Fore_YELLOW := "[33m";
     Style_BRIGHT := "[1m"; Style_RESET_ALL := "[0m" |}.

Definition example_now (format : string) : string := "2025-11-24 10:30:00".

Definition example_upper (s : string) : string := s.

Definition example_tabulate (rows : list (list string))
  (headers : list string) (tablefmt : string) : string :=
  str_of_int (Z.of_nat (List.length rows)).

(** The front end after a successful lookup of the sample response. *)
Definition sample_app : IPInfoApp.app :=
  {| IPInfoApp.api_client := test_client;
     IPInfoApp.last_processed_data := Some sample_output;
     IPInfoApp.running := true |}.

(** ** The JSON export *)

Import Json.

(** What follows a value in the text that the encoder writes: the end of
    the text, a comma or a newline. *)
Definition clean (rest : string) : bool :=
  match rest with
  | "" => true
  | String c _ => (c =? ",")%char || (c =? "010")%char
  end.





Section Safe.
Context {R : Runtime}.
Variable parse_float : string -> float.


End Safe.












(** * Properties *)

(** ** Dicts *)

Lemma get_dict (d : dict) (k : string) (default : pyval) :
  get (PDict d) k default = Ok (getd d k default).
Proof. reflexivity. Qed.

Lemma get_not_dict (v : pyval) (k : string) (default : pyval) :
  is_dict v = false -> get v k default = Raise AttributeError.
Proof. destruct v; simpl; intros H; (reflexivity || discriminate). Qed.

Lemma contains_dict (k : string) (d : dict) :
  contains k (PDict d) = Ok (has_key k d).
Proof.
  unfold has_key. simpl. f_equal.
  induction d as [|[k' v] d IH]; simpl; [reflexivity|].
  rewrite (String.eqb_sym k k').
  destruct (k' =? k); [reflexivity | exact IH].
Qed.

Lemma validate_response_dict (d : dict) :
  validate_response (PDict d) = Ok (has_key "ip_address" d).
Proof.
  unfold validate_response.
  destruct d as [|kv d]; [reflexivity|].
  cbn [truthy negb]. unfold required_fields, check_required.
  rewrite contains_dict. cbn [bind].
  destruct (has_key "ip_address" (kv :: d)); reflexivity.
Qed.

(** ** The IP version classifier *)

Lemma str_contains_char (c : ascii) (s : string) :
  str_contains (String c "") s = true <-> In c (chars s).
Proof.
  induction s as [|a s IH]; simpl.
  - split; [discriminate | contradiction].
  - destruct (ascii_dec c a) as [->|Hne].
    + split; [left; reflexivity|].
      intros _. destruct s; reflexivity.
    + simpl. rewrite IH. split; [right; assumption|].
      intros [Heq|Hin]; [congruence | assumption].
Qed.

Lemma str_contains_char_false (c : ascii) (s : string) :
  str_contains (String c "") s = false <-> ~ In c (chars s).
Proof.
  rewrite <- str_contains_char.
  destruct (str_contains (String c "") s); split; intros H;
    try reflexivity; try discriminate; try congruence.
Qed.

Lemma determine_ip_version_container (v : pyval) :
  is_container v = true -> exists version, _determine_ip_version v = Ok version.
Proof.
  unfold _determine_ip_version. intros H.
  destruct v; try discriminate H; cbn [contains bind].
  - destruct (str_contains ":" s); [eauto|].
    destruct (str_contains "." s); eauto.
  - destruct (existsb (str_eq_val ":") l); [eauto|].
    destruct (existsb (str_eq_val ".") l); eauto.
  - destruct (existsb (fun kv => ":" =? fst kv) d); [eauto|].
    destruct (existsb (fun kv => "." =? fst kv) d); eauto.
Qed.

Lemma determine_ip_version_not_container (v : pyval) :
  is_container v = false -> _determine_ip_version v = Raise TypeError.
Proof. destruct v; simpl; intros H; (reflexivity || discriminate). Qed.

(** C3: for every address string the classifier answers IPv6 when the
    string has a colon, else IPv4 when it has a period, else Unknown; the
    four sample addresses are classified as the specification lists them. *)
Theorem determine_ip_version_classifies :
  (forall s : string,
      _determine_ip_version (PStr s) =
      Ok (if in_dec ascii_dec ":"%char (chars s) then "IPv6"
          else if in_dec ascii_dec "."%char (chars s) then "IPv4"
          else "Unknown")) /\
  _determine_ip_version (PStr "8.8.8.8") = Ok "IPv4" /\
  _determine_ip_version (PStr "2001:4860:4860::8888") = Ok "IPv6" /\
  _determine_ip_version (PStr "") = Ok "Unknown" /\
  _determine_ip_version (PStr "notanip") = Ok "Unknown".
Proof.
  split; [|repeat split; reflexivity].
  intros s. unfold _determine_ip_version. cbn [contains bind].
  destruct (in_dec ascii_dec ":"%char (chars s)) as [Hc|Hc].
  - apply str_contains_char in Hc. rewrite Hc. reflexivity.
  - apply str_contains_char_false in Hc. rewrite Hc.
    destruct (in_dec ascii_dec "."%char (chars s)) as [Hd|Hd].
    + apply str_contains_char in Hd. rewrite Hd. reflexivity.
    + apply str_contains_char_false in Hd. rewrite Hd. reflexivity.
Qed.

(** ** The threat-level aggregator *)

Lemma assess_threat_level_dict (security : dict) :
  _assess_threat_level (PDict security) = Ok (threat_label (set_flags security)).
Proof.
  unfold _assess_threat_level, set_flags, flag_set.
  rewrite !get_dict. cbn [bind]. unfold append_if.
  destruct (truthy (getd security "is_vpn" (PBool false)));
    destruct (truthy (getd security "is_proxy" (PBool false)));
    destruct (truthy (getd security "is_tor" (PBool false)));
    destruct (truthy (getd security "is_relay" (PBool false)));
    reflexivity.
Qed.

Lemma set_flags_count (security : dict) :
  List.length (set_flags security) = flag_count security.
Proof.
  unfold set_flags, flag_count. cbn [filter snd].
  destruct (flag_set security "is_vpn"), (flag_set security "is_proxy"),
    (flag_set security "is_tor"), (flag_set security "is_relay");
    reflexivity.
Qed.

(** C2: for every security mapping, an absent flag being false, the threat
    level is Clean when no flag is set, Low naming the flag when exactly one
    is set, and Medium listing the set flags in the order VPN, Proxy, Tor,
    Relay when two or more are; the number of set flags decides the tier, so
    no other tier is produced. *)
Theorem assess_threat_level_tiers (security : dict) :
  _assess_threat_level (PDict security) =
  Ok (match flag_count security with
      | 0 => "Clean"
      | 1 => "Low (" ++ hd "" (set_flags security) ++ " detected)"
      | _ => "Medium (Multiple: "
             ++ String.concat ", " (set_flags security) ++ ")"
      end) /\
  List.length (set_flags security) = flag_count security /\
  set_flags security =
    ((if flag_set security "is_vpn" then ["VPN"] else []) ++
     (if flag_set security "is_proxy" then ["Proxy"] else []) ++
     (if flag_set security "is_tor" then ["Tor"] else []) ++
     (if flag_set security "is_relay" then ["Relay"] else []))%list.
Proof.
  rewrite assess_threat_level_dict, <- set_flags_count.
  split; [|split; [reflexivity|]].
  - destruct (set_flags security) as [|n1 [|n2 rest]]; reflexivity.
  - unfold set_flags. cbn [filter snd].
    destruct (flag_set security "is_vpn"), (flag_set security "is_proxy"),
      (flag_set security "is_tor"), (flag_set security "is_relay");
      reflexivity.
Qed.

(** ** The six extraction functions *)

Section Extraction.
Context {R : Runtime}.

Lemma project_labels (fields : list field) (source : dict) (default : pyval) :
  map fst (project fields source default) = map label fields.
Proof. unfold project. rewrite map_map. reflexivity. Qed.

Lemma is_dict_inv (v : pyval) :
  is_dict v = true -> exists d, v = PDict d.
Proof. destruct v; try discriminate. eauto. Qed.

Lemma extract_basic_info_dict (raw : dict) (version : string) :
  _determine_ip_version (getd raw "ip_address" (PStr "")) = Ok version ->
  extract_basic_info (PDict raw) =
  Ok (PDict (("IP Address", getd raw "ip_address" sentinel)
             :: ("IP Version", PStr version)
             :: project basic_fields raw sentinel)).
Proof.
  intros H. unfold extract_basic_info.
  rewrite !get_dict. cbn [bind]. rewrite H. reflexivity.
Qed.

Lemma extract_basic_info_raises (raw : dict) :
  address_ok raw = false -> extract_basic_info (PDict raw) = Raise TypeError.
Proof.
  intros H. unfold extract_basic_info.
  rewrite !get_dict. cbn [bind].
  rewrite determine_ip_version_not_container by exact H. reflexivity.
Qed.

Lemma extract_connection_info_dict (raw conn : dict) :
  group raw "connection" = PDict conn ->
  extract_connection_info (PDict raw) =
  Ok (PDict (project connection_fields conn sentinel)).
Proof.
  unfold group. intros H. unfold extract_connection_info.
  rewrite get_dict, H. reflexivity.
Qed.

Lemma extract_timezone_info_dict (raw tz : dict) :
  group raw "timezone" = PDict tz ->
  extract_timezone_info (PDict raw) =
  Ok (PDict (project timezone_fields tz sentinel)).
Proof.
  unfold group. intros H. unfold extract_timezone_info.
  rewrite get_dict, H. reflexivity.
Qed.

Lemma extract_security_info_dict (raw sec : dict) :
  group raw "security" = PDict sec ->
  extract_security_info (PDict raw) =
  Ok (PDict (project security_flags sec (PBool false)
             ++ [("Threat Level", PStr (threat_label (set_flags sec)))])).
Proof.
  unfold group. intros H. unfold extract_security_info.
  rewrite get_dict, H. cbn [bind].
  unfold _check_proxy, _check_tor, _check_relay.
  rewrite assess_threat_level_dict, !get_dict. reflexivity.
Qed.

Lemma extract_currency_info_dict (raw cur : dict) :
  group raw "currency" = PDict cur ->
  extract_currency_info (PDict raw) =
  Ok (PDict (project currency_fields cur sentinel)).
Proof.
  unfold group. intros H. unfold extract_currency_info.
  rewrite get_dict, H. reflexivity.
Qed.

Lemma extract_flag_info_dict (raw fl : dict) :
  group raw "flag" = PDict fl ->
  extract_flag_info (PDict raw) =
  Ok (PDict (project flag_fields fl sentinel)).
Proof.
  unfold group. intros H. unfold extract_flag_info.
  rewrite get_dict, H. reflexivity.
Qed.

(** A group that is present and is no mapping makes its function raise. *)
Lemma extract_group_raises (raw : dict) :
  (is_dict (group raw "connection") = false ->
   extract_connection_info (PDict raw) = Raise AttributeError) /\
  (is_dict (group raw "timezone") = false ->
   extract_timezone_info (PDict raw) = Raise AttributeError) /\
  (is_dict (group raw "security") = false ->
   extract_security_info (PDict raw) = Raise AttributeError) /\
  (is_dict (group raw "currency") = false ->
   extract_currency_info (PDict raw) = Raise AttributeError) /\
  (is_dict (group raw "flag") = false ->
   extract_flag_info (PDict raw) = Raise AttributeError).
Proof.
  unfold group.
  repeat split; intros H;
    [ unfold extract_connection_info
    | unfold extract_timezone_info
    | unfold extract_security_info
    | unfold extract_currency_info
    | unfold extract_flag_info ];
    rewrite get_dict; cbn [bind];
    rewrite get_not_dict by exact H; reflexivity.
Qed.

Lemma process_all_data_invalid (raw : dict) :
  has_key "ip_address" raw = false ->
  process_all_data (PDict raw) = Ok (PDict []).
Proof.
  intros H. unfold process_all_data.
  rewrite validate_response_dict, H. reflexivity.
Qed.

Lemma process_all_data_valid (raw : dict) :
  has_key "ip_address" raw = true ->
  process_all_data (PDict raw) =
  (basic <- extract_basic_info (PDict raw) ;;
   connection <- extract_connection_info (PDict raw) ;;
   timezone <- extract_timezone_info (PDict raw) ;;
   security <- extract_security_info (PDict raw) ;;
   currency <- extract_currency_info (PDict raw) ;;
   flag <- extract_flag_info (PDict raw) ;;
   Ok (PDict [ ("basic", basic); ("connection", connection);
               ("timezone", timezone); ("security", security);
               ("currency", currency); ("flag", flag) ]))%res.
Proof.
  intros H. unfold process_all_data.
  rewrite validate_response_dict, H. reflexivity.
Qed.

Lemma well_shaped_inv (raw : dict) :
  well_shaped raw = true ->
  exists version conn tz sec cur fl,
    _determine_ip_version (getd raw "ip_address" (PStr "")) = Ok version /\
    group raw "connection" = PDict conn /\
    group raw "timezone" = PDict tz /\
    group raw "security" = PDict sec /\
    group raw "currency" = PDict cur /\
    group raw "flag" = PDict fl.
Proof.
  unfold well_shaped, address_ok, groups_ok, group_keys. cbn [forallb].
  rewrite !andb_true_iff.
  intros (Ha & Hc & Ht & Hs & Hcu & Hf & _).
  destruct (determine_ip_version_container _ Ha) as [version Hv].
  apply is_dict_inv in Hc, Ht, Hs, Hcu, Hf.
  destruct Hc as [conn Hc], Ht as [tz Ht], Hs as [sec Hs],
    Hcu as [cur Hcu], Hf as [fl Hf].
  exists version, conn, tz, sec, cur, fl. repeat split; assumption.
Qed.

(** The whole output for a valid, well-shaped raw response. *)
Lemma process_all_data_well_shaped (raw : dict) :
  has_key "ip_address" raw = true ->
  well_shaped raw = true ->
  exists version conn tz sec cur fl,
    _determine_ip_version (getd raw "ip_address" (PStr "")) = Ok version /\
    group raw "connection" = PDict conn /\
    group raw "timezone" = PDict tz /\
    group raw "security" = PDict sec /\
    group raw "currency" = PDict cur /\
    group raw "flag" = PDict fl /\
    process_all_data (PDict raw) =
    Ok (PDict
          [ ("basic",
             PDict (("IP Address", getd raw "ip_address" sentinel)
                    :: ("IP Version", PStr version)
                    :: project basic_fields raw sentinel));
            ("connection", PDict (project connection_fields conn sentinel));
            ("timezone", PDict (project timezone_fields tz sentinel));
            ("security",
             PDict (project security_flags sec (PBool false)
                    ++ [("Threat Level",
                         PStr (threat_label (set_flags sec)))]));
            ("currency", PDict (project currency_fields cur sentinel));
            ("flag", PDict (project flag_fields fl sentinel)) ]).
Proof.
  intros Hk Hw.
  destruct (well_shaped_inv raw Hw)
    as (version & conn & tz & sec & cur & fl & Hv & Hc & Ht & Hs & Hcu & Hf).
  exists version, conn, tz, sec, cur, fl.
  repeat (split; [assumption|]).
  rewrite process_all_data_valid by exact Hk.
  rewrite (extract_basic_info_dict raw version Hv),
    (extract_connection_info_dict raw conn Hc),
    (extract_timezone_info_dict raw tz Ht),
    (extract_security_info_dict raw sec Hs),
    (extract_currency_info_dict raw cur Hcu),
    (extract_flag_info_dict raw fl Hf).
  reflexivity.
Qed.

(** A valid raw response of any other shape makes the transformer raise. *)
Lemma process_all_data_ill_shaped (raw : dict) :
  has_key "ip_address" raw = true ->
  well_shaped raw = false ->
  exists e, process_all_data (PDict raw) = Raise e.
Proof.
  intros Hk Hw. rewrite process_all_data_valid by exact Hk.
  unfold well_shaped in Hw.
  destruct (address_ok raw) eqn:Ha.
  - destruct (determine_ip_version_container _ Ha) as [version Hv].
    rewrite (extract_basic_info_dict raw version Hv). cbn [bind].
    destruct (extract_group_raises raw) as (Rc & Rt & Rs & Rcu & Rf).
    cbn [andb] in Hw. unfold groups_ok, group_keys in Hw. cbn [forallb] in Hw.
    destruct (is_dict (group raw "connection")) eqn:Hc;
      [|rewrite Rc by reflexivity; eexists; reflexivity].
    destruct (is_dict_inv _ Hc) as [conn Hc'].
    rewrite (extract_connection_info_dict raw conn Hc'). cbn [bind].
    destruct (is_dict (group raw "timezone")) eqn:Ht;
      [|rewrite Rt by reflexivity; eexists; reflexivity].
    destruct (is_dict_inv _ Ht) as [tz Ht'].
    rewrite (extract_timezone_info_dict raw tz Ht'). cbn [bind].
    destruct (is_dict (group raw "security")) eqn:Hs;
      [|rewrite Rs by reflexivity; eexists; reflexivity].
    destruct (is_dict_inv _ Hs) as [sec Hs'].
    rewrite (extract_security_info_dict raw sec Hs'). cbn [bind].
    destruct (is_dict (group raw "currency")) eqn:Hcu;
      [|rewrite Rcu by reflexivity; eexists; reflexivity].
    destruct (is_dict_inv _ Hcu) as [cur Hcu'].
    rewrite (extract_currency_info_dict raw cur Hcu'). cbn [bind].
    destruct (is_dict (group raw "flag")) eqn:Hf;
      [|rewrite Rf by reflexivity; eexists; reflexivity].
    cbn in Hw. discriminate Hw.
  - rewrite (extract_basic_info_raises raw Ha). eexists. reflexivity.
Qed.

End Extraction.

(** ** The transformer *)

(** C1, as stated, fails: a raw response that has the key ip_address makes
    the transformer raise when a group is null, and when the address itself
    is null. *)
Lemma process_all_data_raises_on_null :
  has_key "ip_address"
    [("ip_address", PStr "8.8.8.8"); ("timezone", PNone)] = true /\
  process_all_data (R := example_runtime)
    (PDict [("ip_address", PStr "8.8.8.8"); ("timezone", PNone)])
  = Raise AttributeError /\
  has_key "ip_address" [("ip_address", PNone)] = true /\
  process_all_data (R := example_runtime) (PDict [("ip_address", PNone)])
  = Raise TypeError.
Proof. repeat split. Qed.

(** C1, amended: a raw response that is null, empty or without the key
    ip_address gives the empty mapping; one that has the key, whose address
    is a str (or another container) and whose groups are each absent or a
    mapping, gives exactly the six categories, each with its fixed labels;
    one that has the key and any other shape makes the transformer raise. *)
Theorem process_all_data_categories {R : Runtime} :
  process_all_data PNone = Ok (PDict []) /\
  process_all_data (PDict []) = Ok (PDict []) /\
  (forall raw, has_key "ip_address" raw = false ->
     process_all_data (PDict raw) = Ok (PDict [])) /\
  (forall raw, has_key "ip_address" raw = true -> well_shaped raw = true ->
     exists out, process_all_data (PDict raw) = Ok out /\ six_categories out) /\
  (forall raw, has_key "ip_address" raw = true -> well_shaped raw = false ->
     exists e, process_all_data (PDict raw) = Raise e).
Proof.
  split; [reflexivity|]. split; [reflexivity|].
  split; [exact process_all_data_invalid|].
  split; [|exact process_all_data_ill_shaped].
  intros raw Hk Hw.
  destruct (process_all_data_well_shaped raw Hk Hw)
    as (version & conn & tz & sec & cur & fl & _ & _ & _ & _ & _ & _ & Hout).
  eexists. split; [exact Hout|].
  unfold six_categories.
  do 6 eexists. split; [reflexivity|].
  rewrite map_app, !project_labels.
  cbn [map fst]. rewrite !project_labels.
  repeat split.
Qed.

(** The sample response gives the six categories; a response without the
    address gives the empty mapping. *)
Lemma process_all_data_categories_witness :
  (exists out,
      process_all_data (R := example_runtime) (PDict sample_response) = Ok out /\
      six_categories out) /\
  process_all_data (R := example_runtime) (PDict [("city", PStr "Test")])
  = Ok (PDict []).
Proof.
  split.
  - apply (proj1 (proj2 (proj2 (proj2
             (@process_all_data_categories example_runtime)))));
      reflexivity.
  - apply (proj1 (proj2 (proj2
             (@process_all_data_categories example_runtime))));
      reflexivity.
Defined.

(** C4, as stated, fails: with only the address present, IP Version is the
    classification of the address, the four flags are False and the threat
    level is Clean, none of them the sentinel; and a null address makes the
    transformer raise. *)
Lemma only_address_not_all_sentinel :
  ~ all_but_address_sentinel (R := example_runtime)
      (PDict [("ip_address", PStr "8.8.8.8")]) /\
  match process_all_data (R := example_runtime)
          (PDict [("ip_address", PStr "8.8.8.8")]) with
  | Ok out =>
      field_of out "basic" "IP Version" = Some (PStr "IPv4") /\
      field_of out "security" "Is VPN" = Some (PBool false) /\
      field_of out "security" "Threat Level" = Some (PStr "Clean")
  | Raise _ => False
  end /\
  process_all_data (R := example_runtime) (PDict [("ip_address", PNone)])
  = Raise TypeError.
Proof.
  split; [|repeat split].
  intros (out & Hout & Hall).
  vm_compute in Hout. injection Hout as <-.
  specialize (Hall "security" "Is VPN" (PBool false) eq_refl).
  assert (H : PBool false = sentinel) by (apply Hall; discriminate).
  discriminate H.
Qed.

(** C4, amended: for a raw response whose only key is ip_address and whose
    address is a str (or another container), nothing is raised; every field
    of basic other than IP Address and IP Version, and every field of
    connection, timezone, currency and flag, is the sentinel; IP Version is
    the classification of the address; the four security flags are False
    and the threat level is Clean. *)
Theorem only_address_output {R : Runtime} (address : pyval) :
  is_container address = true ->
  exists version,
    _determine_ip_version address = Ok version /\
    process_all_data (PDict [("ip_address", address)]) =
    Ok (PDict
          [ ("basic",
             PDict (("IP Address", address)
                    :: ("IP Version", PStr version)
                    :: constant_rows basic_fields sentinel));
            ("connection", PDict (constant_rows connection_fields sentinel));
            ("timezone", PDict (constant_rows timezone_fields sentinel));
            ("security",
             PDict (constant_rows security_flags (PBool false)
                    ++ [("Threat Level", PStr "Clean")]));
            ("currency", PDict (constant_rows currency_fields sentinel));
            ("flag", PDict (constant_rows flag_fields sentinel)) ]).
Proof.
  intros Ha.
  destruct (process_all_data_well_shaped [("ip_address", address)])
    as (version & conn & tz & sec & cur & fl
        & Hv & Hc & Ht & Hs & Hcu & Hf & Hout).
  - reflexivity.
  - unfold well_shaped, address_ok. cbn. rewrite Ha. reflexivity.
  - exists version. split; [exact Hv|].
    rewrite Hout.
    injection Hc as <-. injection Ht as <-. injection Hs as <-.
    injection Hcu as <-. injection Hf as <-.
    reflexivity.
Qed.

(** The response of the test suite that holds the address 1.1.1.1 alone. *)
Lemma only_address_output_witness :
  exists version,
    _determine_ip_version (PStr "1.1.1.1") = Ok version /\
    process_all_data (R := example_runtime)
      (PDict [("ip_address", PStr "1.1.1.1")]) =
    Ok (PDict
          [ ("basic",
             PDict (("IP Address", PStr "1.1.1.1")
                    :: ("IP Version", PStr version)
                    :: constant_rows basic_fields sentinel));
            ("connection", PDict (constant_rows connection_fields sentinel));
            ("timezone", PDict (constant_rows timezone_fields sentinel));
            ("security",
             PDict (constant_rows security_flags (PBool false)
                    ++ [("Threat Level", PStr "Clean")]));
            ("currency", PDict (constant_rows currency_fields sentinel));
            ("flag", PDict (constant_rows flag_fields sentinel)) ]).
Proof.
  apply (@only_address_output example_runtime (PStr "1.1.1.1")).
  reflexivity.
Defined.

(** C7, as stated, fails: a group that is present and is no mapping makes
    its extraction function, and with it the transformer, raise; and an
    absent security flag is read as False, not as the sentinel. *)
Lemma extraction_raises_on_null_group :
  extract_connection_info (R := example_runtime)
    (PDict [("ip_address", PStr "8.8.8.8"); ("connection", PNone)])
  = Raise AttributeError /\
  process_all_data (R := example_runtime)
    (PDict [("ip_address", PStr "8.8.8.8"); ("connection", PNone)])
  = Raise AttributeError /\
  extract_security_info (PDict [("ip_address", PStr "8.8.8.8")])
  = Ok (PDict [ ("Is VPN", PBool false); ("Is Proxy", PBool false);
                ("Is Tor", PBool false); ("Is Relay", PBool false);
                ("Threat Level", PStr "Clean") ]).
Proof. repeat split. Qed.

(** C7, amended: each of the six extraction functions depends on its own
    part of the raw response alone, and returns without raising exactly
    when that part has the shape it relies on: [extract_basic_info] when the
    address, if present, is a str (or another container), with TypeError
    otherwise; each of the five other functions when its own group is absent
    or a mapping, with AttributeError otherwise, whatever the address and
    the other groups are.  A function that returns has read its group, the
    empty mapping when absent, and each of its rows, the sentinel when
    absent (False for the four security flags), with IP Version and Threat
    Level derived.  The transformer returns without raising exactly when
    the key ip_address is missing or all six functions return. *)
Theorem extraction_total_per_category {R : Runtime} (raw : dict) :
  (if is_container (getd raw "ip_address" (PStr ""))
   then exists version,
          _determine_ip_version (getd raw "ip_address" (PStr "")) = Ok version /\
          extract_basic_info (PDict raw) =
          Ok (PDict (("IP Address", getd raw "ip_address" sentinel)
                     :: ("IP Version", PStr version)
                     :: project basic_fields raw sentinel))
   else extract_basic_info (PDict raw) = Raise TypeError) /\
  extract_connection_info (PDict raw) =
    match getd raw "connection" (PDict []) with
    | PDict conn => Ok (PDict (project connection_fields conn sentinel))
    | _ => Raise AttributeError
    end /\
  extract_timezone_info (PDict raw) =
    match getd raw "timezone" (PDict []) with
    | PDict tz => Ok (PDict (project timezone_fields tz sentinel))
    | _ => Raise AttributeError
    end /\
  extract_security_info (PDict raw) =
    match getd raw "security" (PDict []) with
    | PDict sec =>
        Ok (PDict (project security_flags sec (PBool false)
                   ++ [("Threat Level", PStr (threat_label (set_flags sec)))]))
    | _ => Raise AttributeError
    end /\
  extract_currency_info (PDict raw) =
    match getd raw "currency" (PDict []) with
    | PDict cur => Ok (PDict (project currency_fields cur sentinel))
    | _ => Raise AttributeError
    end /\
  extract_flag_info (PDict raw) =
    match getd raw "flag" (PDict []) with
    | PDict fl => Ok (PDict (project flag_fields fl sentinel))
    | _ => Raise AttributeError
    end /\
  ((exists out, process_all_data (PDict raw) = Ok out) <->
   has_key "ip_address" raw = false \/ well_shaped raw = true).
Proof.
  destruct (extract_group_raises raw) as (Rc & Rt & Rs & Rcu & Rf).
  unfold group in Rc, Rt, Rs, Rcu, Rf.
  split.
  { destruct (is_container (getd raw "ip_address" (PStr ""))) eqn:Ha.
    - destruct (determine_ip_version_container _ Ha) as [version Hv].
      exists version. split; [exact Hv|].
      exact (extract_basic_info_dict raw version Hv).
    - exact (extract_basic_info_raises raw Ha). }
  split.
  { destruct (getd raw "connection" (PDict [])) eqn:H;
      try (apply Rc; reflexivity).
    exact (extract_connection_info_dict raw _ H). }
  split.
  { destruct (getd raw "timezone" (PDict [])) eqn:H;
      try (apply Rt; reflexivity).
    exact (extract_timezone_info_dict raw _ H). }
  split.
  { destruct (getd raw "security" (PDict [])) eqn:H;
      try (apply Rs; reflexivity).
    exact (extract_security_info_dict raw _ H). }
  split.
  { destruct (getd raw "currency" (PDict [])) eqn:H;
      try (apply Rcu; reflexivity).
    exact (extract_currency_info_dict raw _ H). }
  split.
  { destruct (getd raw "flag" (PDict [])) eqn:H;
      try (apply Rf; reflexivity).
    exact (extract_flag_info_dict raw _ H). }
  destruct (has_key "ip_address" raw) eqn:Hk.
  - destruct (well_shaped raw) eqn:Hw.
    + split; [intros _; right; reflexivity|]. intros _.
      destruct (process_all_data_well_shaped raw Hk Hw)
        as (? & ? & ? & ? & ? & ? & _ & _ & _ & _ & _ & _ & Hout).
      eexists. exact Hout.
    + destruct (process_all_data_ill_shaped raw Hk Hw) as [e He].
      split.
      * intros [out Hout]. rewrite He in Hout. discriminate Hout.
      * intros [H|H]; discriminate H.
  - split; [intros _; left; reflexivity|]. intros _.
    eexists. exact (process_all_data_invalid raw Hk).
Qed.

(** A raw response whose address and timezone are null: the basic and the
    timezone functions raise, and the connection, security and flag
    functions return all the same. *)
Lemma extraction_total_per_category_witness :
  extract_basic_info (R := example_runtime)
    (PDict [("ip_address", PNone); ("timezone", PNone)])
  = Raise TypeError /\
  extract_timezone_info (R := example_runtime)
    (PDict [("ip_address", PNone); ("timezone", PNone)])
  = Raise AttributeError /\
  extract_connection_info (R := example_runtime)
    (PDict [("ip_address", PNone); ("timezone", PNone)])
  = Ok (PDict (constant_rows connection_fields sentinel)) /\
  extract_security_info
    (PDict [("ip_address", PNone); ("timezone", PNone)])
  = Ok (PDict (constant_rows security_flags (PBool false)
               ++ [("Threat Level", PStr "Clean")])) /\
  extract_flag_info
    (PDict [("ip_address", PNone); ("timezone", PNone)])
  = Ok (PDict (constant_rows flag_fields sentinel)).
Proof.
  destruct (@extraction_total_per_category example_runtime
              [("ip_address", PNone); ("timezone", PNone)])
    as (Hb & Hc & Ht & Hs & _ & Hf & _).
  repeat split; assumption.
Defined.

(** ** The security category *)

Lemma boolean_flags_inv (raw sec : dict) :
  boolean_flags raw -> group raw "security" = PDict sec ->
  exists vpn proxy tor relay,
    getd sec "is_vpn" (PBool false) = PBool vpn /\
    getd sec "is_proxy" (PBool false) = PBool proxy /\
    getd sec "is_tor" (PBool false) = PBool tor /\
    getd sec "is_relay" (PBool false) = PBool relay.
Proof.
  intros Hb Hs. specialize (Hb sec Hs).
  destruct (Hb {| label := "Is VPN"; key := "is_vpn"; stringified := false |})
    as [vpn Hvpn]; [cbn; tauto|].
  destruct (Hb {| label := "Is Proxy"; key := "is_proxy";
                  stringified := false |})
    as [proxy Hproxy]; [cbn; tauto|].
  destruct (Hb {| label := "Is Tor"; key := "is_tor"; stringified := false |})
    as [tor Htor]; [cbn; tauto|].
  destruct (Hb {| label := "Is Relay"; key := "is_relay";
                  stringified := false |})
    as [relay Hrelay]; [cbn; tauto|].
  exists vpn, proxy, tor, relay. cbn [key] in *. repeat split; assumption.
Qed.

(** C10: for every raw response whose security flags are booleans (or
    absent), in the output of the transformer the threat level is Clean
    exactly when Is VPN, Is Proxy, Is Tor and Is Relay are all False. *)
Theorem security_category_consistent {R : Runtime} (raw : dict) (out : pyval) :
  boolean_flags raw ->
  process_all_data (PDict raw) = Ok out ->
  (field_of out "security" "Threat Level" = Some (PStr "Clean") <->
   field_of out "security" "Is VPN" = Some (PBool false) /\
   field_of out "security" "Is Proxy" = Some (PBool false) /\
   field_of out "security" "Is Tor" = Some (PBool false) /\
   field_of out "security" "Is Relay" = Some (PBool false)).
Proof.
  intros Hb Hout.
  destruct (has_key "ip_address" raw) eqn:Hk.
  - destruct (well_shaped raw) eqn:Hw.
    + destruct (process_all_data_well_shaped raw Hk Hw)
        as (version & conn & tz & sec & cur & fl
            & _ & _ & _ & Hs & _ & _ & Hout').
      rewrite Hout' in Hout. injection Hout as <-.
      destruct (boolean_flags_inv raw sec Hb Hs)
        as (vpn & proxy & tor & relay & Hvpn & Hproxy & Htor & Hrelay).
      unfold field_of. cbn [lookup String.eqb Ascii.eqb Bool.eqb].
      unfold project, security_flags, read, set_flags, flag_set.
      cbn [map label key stringified app].
      rewrite Hvpn, Hproxy, Htor, Hrelay.
      destruct vpn, proxy, tor, relay; vm_compute;
        (split; [intros H | intros (H1 & H2 & H3 & H4)]);
        repeat split; congruence.
    + destruct (process_all_data_ill_shaped raw Hk Hw) as [e He].
      rewrite He in Hout. discriminate Hout.
  - rewrite (process_all_data_invalid raw Hk) in Hout.
    injection Hout as <-. cbn.
    split; [intros H | intros (H & _)]; discriminate H.
Qed.

Lemma sample_response_boolean_flags : boolean_flags sample_response.
Proof.
  intros sec Hs f Hf. vm_compute in Hs. injection Hs as <-.
  destruct Hf as [<-|[<-|[<-|[<-|[]]]]]; eexists; reflexivity.
Defined.

(** The security category made of the sample response. *)
Lemma security_category_consistent_witness :
  field_of sample_output "security" "Threat Level" = Some (PStr "Clean") <->
  field_of sample_output "security" "Is VPN" = Some (PBool false) /\
  field_of sample_output "security" "Is Proxy" = Some (PBool false) /\
  field_of sample_output "security" "Is Tor" = Some (PBool false) /\
  field_of sample_output "security" "Is Relay" = Some (PBool false).
Proof.
  apply (@security_category_consistent example_runtime sample_response
           sample_output sample_response_boolean_flags).
  reflexivity.
Defined.

(** ** The transformer on equal raw responses *)


















Lemma lookup_absent (k : string) (d : dict) :
  existsb (String.eqb k) (map fst d) = false -> lookup k d = None.
Proof.
  induction d as [|[k' v] d IH]; cbn; [reflexivity|].
  rewrite orb_false_iff, (String.eqb_sym k k'). intros [-> H]. exact (IH H).
Qed.



Section Equality.
Context {R : Runtime}.







End Equality.




(** ** The JSON export *)




(** *** Strings *)




(** *** Numbers *)












Section Numbers.
Variable parse_float : string -> float.


End Numbers.

(** *** The text of an int *)









(** *** Values *)






Section Tokens.
Context {R : Runtime}.
Variable parse_float : string -> float.







End Tokens.

(** *** Arrays and objects *)



Section Containers.
Variable scan : string -> option (pyval * string).
Variable enc : pyval -> string.
Variable level : nat.








End Containers.

Section Decode.
Variable scan : string -> option (pyval * string).



End Decode.







Section RoundTrip.
Context {R : Runtime}.
Variable parse_float : string -> float.








End RoundTrip.







(** ** The transport adapter *)

Lemma str_of_int_inj (z1 z2 : Z) : str_of_int z1 = str_of_int z2 -> z1 = z2.
Proof.
  unfold str_of_int. intros H.
  assert (Hnz : forall z, Z.to_int z <> Decimal.Pos Decimal.Nil /\
                          Z.to_int z <> Decimal.Neg Decimal.Nil).
  { intros [|p|p]; cbn; split; try discriminate;
      intros [= Hp]; exact (DecimalPos.Unsigned.to_uint_nonnil p Hp). }
  apply DecimalZ.to_int_inj.
  assert (Hs : Some (Z.to_int z1) = Some (Z.to_int z2)).
  { rewrite <- (NilZero.isi (Z.to_int z1)) by apply Hnz.
    rewrite <- (NilZero.isi (Z.to_int z2)) by apply Hnz.
    rewrite H. reflexivity. }
  injection Hs as Hs. exact Hs.
Qed.

Lemma append_inj_l (p a b : string) : p ++ a = p ++ b -> a = b.
Proof.
  induction p as [|c p IH]; cbn; [trivial|].
  intros [= H]. exact (IH H).
Qed.

(** Failures of different kinds print different lines, and the generic line
    tells the status code. *)
Lemma message_inj (address : string) (f1 f2 : failure) :
  message f1 address = message f2 address -> f1 = f2.
Proof.
  destruct f1, f2; intros H; try reflexivity;
    try (cbn in H; discriminate H).
  unfold message in H. apply append_inj_l in H. apply str_of_int_inj in H. congruence.
Qed.

Section Transport.
Context {R : Runtime}.
Variable network : string -> Z -> res response.
Variable self : t.

Lemma get_current_ip_info_response (r : response) :
  network (current_url self) (timeout self) = Ok r ->
  get_current_ip_info network self =
  if (status_code r =? 200)%Z then
    try_except (json r, [HttpGet (current_url self) (timeout self)])
      (handler)
  else
    (Ok PNone,
     [ HttpGet (current_url self) (timeout self);
       Print (message (classify_current (status_code r)) "") ]).
Proof.
  intros H. unfold get_current_ip_info, requests_get, classify_current.
  fold (current_url self). rewrite H. cbn [io_bind].
  destruct (status_code r =? 200)%Z.
  - unfold lift, try_except. destruct (json r); reflexivity.
  - destruct (status_code r =? 401)%Z; [reflexivity|].
    destruct (status_code r =? 429)%Z; reflexivity.
Qed.

Lemma get_specific_ip_info_response (s : string) (r : response) :
  s <> "" ->
  network (specific_url self s) (timeout self) = Ok r ->
  get_specific_ip_info network self (PStr s) =
  if (status_code r =? 200)%Z then
    try_except (json r, [HttpGet (specific_url self s) (timeout self)])
      (handler)
  else
    (Ok PNone,
     [ HttpGet (specific_url self s) (timeout self);
       Print (message (classify_specific (status_code r)) s) ]).
Proof.
  intros Hs H. unfold get_specific_ip_info, requests_get, classify_specific.
  cbn [truthy isinstance_str str negb orb].
  apply String.eqb_neq in Hs. rewrite Hs. cbn [negb orb].
  fold (specific_url self s). rewrite H. cbn [io_bind].
  destruct (status_code r =? 200)%Z.
  - unfold lift, try_except. destruct (json r); reflexivity.
  - destruct (Z.eqb_spec (status_code r) 422) as [E|_];
      [rewrite E; reflexivity|].
    destruct (status_code r =? 401)%Z; [reflexivity|].
    destruct (status_code r =? 429)%Z; reflexivity.
Qed.

Lemma get_specific_ip_info_invalid (ip_address : pyval) :
  truthy ip_address = false \/ isinstance_str ip_address = false ->
  get_specific_ip_info network self ip_address =
  (Ok PNone, [Print "Error: Invalid IP address format."]).
Proof.
  intros H. unfold get_specific_ip_info.
  assert (Hc : negb (truthy ip_address) || negb (isinstance_str ip_address)
               = true).
  { destruct H as [-> | ->]; [reflexivity | apply orb_true_r]. }
  rewrite Hc. reflexivity.
Qed.

Lemma handler_no_call (e : exn) : network_calls (snd (handler e)) = 0.
Proof. destruct e; reflexivity. Qed.

Lemma get_specific_ip_info_one_call (s : string) :
  s <> "" ->
  exists rest,
    snd (get_specific_ip_info network self (PStr s)) =
    HttpGet (specific_url self s) (timeout self) :: rest /\
    network_calls rest = 0.
Proof.
  intros Hs.
  destruct (network (specific_url self s) (timeout self)) as [r|e] eqn:H.
  - rewrite (get_specific_ip_info_response s r Hs H).
    destruct (status_code r =? 200)%Z; [|eexists; split; reflexivity].
    unfold try_except. destruct (json r) as [body|e].
    + eexists; split; reflexivity.
    + destruct (handler e) as [out trace] eqn:He. cbn [snd app].
      eexists; split; [reflexivity|].
      change trace with (snd (out, trace)). rewrite <- He.
      apply handler_no_call.
  - unfold get_specific_ip_info, requests_get.
    cbn [truthy isinstance_str str negb orb].
    apply String.eqb_neq in Hs. rewrite Hs. cbn [negb orb].
    fold (specific_url self s). rewrite H. cbn [io_bind try_except].
    destruct (handler e) as [out trace] eqn:He. cbn [snd app].
    eexists; split; [reflexivity|].
    change trace with (snd (out, trace)). rewrite <- He.
    apply handler_no_call.
Qed.

End Transport.

(** C5, as stated, fails: a failed lookup returns None whatever the status,
    so the returned value tells neither the failure nor the status code;
    the failure is a printed line, which carries the status code only in
    the generic case; and on the current-IP path a 422 is a generic
    failure. *)
Lemma lookup_returns_no_reason :
  ~ returns_status_code
      (fun network =>
         get_specific_ip_info (R := example_runtime) network test_client
           (PStr "8.8.8.8")) /\
  ~ returns_status_code
      (fun network => get_current_ip_info network test_client) /\
  get_current_ip_info (answers (with_status 401)) test_client =
  (Ok PNone,
   [ HttpGet
       "https://ipgeolocation.abstractapi.com/v1/?api_key=test_api_key_12345"
       10;
     Print "Error: Invalid API key. Please check your credentials." ]) /\
  get_current_ip_info (answers (with_status 422)) test_client =
  (Ok PNone,
   [ HttpGet
       "https://ipgeolocation.abstractapi.com/v1/?api_key=test_api_key_12345"
       10;
     Print "Error: API returned status code 422" ]).
Proof.
  split; [|split; [|split; reflexivity]].
  - intros [code_of H].
    destruct (H (with_status 401)) as (v1 & E1 & C1); [discriminate|].
    destruct (H (with_status 429)) as (v2 & E2 & C2); [discriminate|].
    vm_compute in E1, E2.
    injection E1 as <-. injection E2 as <-.
    cbn in C1, C2. rewrite C1 in C2. discriminate C2.
  - intros [code_of H].
    destruct (H (with_status 401)) as (v1 & E1 & C1); [discriminate|].
    destruct (H (with_status 429)) as (v2 & E2 & C2); [discriminate|].
    vm_compute in E1, E2.
    injection E1 as <-. injection E2 as <-.
    cbn in C1, C2. rewrite C1 in C2. discriminate C2.
Qed.

(** C5, amended: when the request is answered, a lookup makes that one
    request and no other; on status 200 it returns the parsed JSON body
    unchanged; on any other status it returns None and prints one line that
    tells the failure: the invalid-key line for 401, the rate-limit line for
    429, the invalid-address line naming the address for 422 on the
    specific-IP path only, and otherwise (422 on the current-IP path
    included) the generic line, which carries the status code.  Different
    failures print different lines. *)
Theorem lookup_status_outcomes {R : Runtime}
  (network : string -> Z -> res response) (self : t) (r : response) :
  (network (current_url self) (timeout self) = Ok r ->
   (forall body, status_code r = 200%Z -> json r = Ok body ->
      get_current_ip_info network self =
      (Ok body, [HttpGet (current_url self) (timeout self)])) /\
   (status_code r <> 200%Z ->
      get_current_ip_info network self =
      (Ok PNone,
       [ HttpGet (current_url self) (timeout self);
         Print (message (classify_current (status_code r)) "") ]))) /\
  (forall s, s <> "" ->
   network (specific_url self s) (timeout self) = Ok r ->
   (forall body, status_code r = 200%Z -> json r = Ok body ->
      get_specific_ip_info network self (PStr s) =
      (Ok body, [HttpGet (specific_url self s) (timeout self)])) /\
   (status_code r <> 200%Z ->
      get_specific_ip_info network self (PStr s) =
      (Ok PNone,
       [ HttpGet (specific_url self s) (timeout self);
         Print (message (classify_specific (status_code r)) s) ]))) /\
  (forall address f1 f2,
     message f1 address = message f2 address -> f1 = f2).
Proof.
  split; [|split; [|exact message_inj]].
  - intros H. rewrite (get_current_ip_info_response network self r H).
    split.
    + intros body Hst Hb. rewrite Hst, Hb. reflexivity.
    + intros Hst. apply Z.eqb_neq in Hst. rewrite Hst. reflexivity.
  - intros s Hs H.
    rewrite (get_specific_ip_info_response network self s r Hs H).
    split.
    + intros body Hst Hb. rewrite Hst, Hb. reflexivity.
    + intros Hst. apply Z.eqb_neq in Hst. rewrite Hst. reflexivity.
Qed.

(** A rate-limited current-IP lookup and a successful specific-IP lookup. *)
Lemma lookup_status_outcomes_witness :
  get_current_ip_info (answers (with_status 429)) test_client =
  (Ok PNone,
   [ HttpGet (current_url test_client) 10;
     Print "Error: API rate limit exceeded. Please try again later." ]) /\
  get_specific_ip_info (R := example_runtime)
    (answers {| status_code := 200; json := Ok (PDict sample_response) |})
    test_client (PStr "8.8.8.8") =
  (Ok (PDict sample_response),
   [HttpGet (specific_url test_client "8.8.8.8") 10]).
Proof.
  split.
  - apply (proj2 (proj1 (@lookup_status_outcomes example_runtime
                           (answers (with_status 429)) test_client
                           (with_status 429)) eq_refl)).
    discriminate.
  - apply (proj1 (proj1 (proj2 (@lookup_status_outcomes example_runtime
                           (answers {| status_code := 200;
                                       json := Ok (PDict sample_response) |})
                           test_client
                           {| status_code := 200;
                              json := Ok (PDict sample_response) |}))
                    "8.8.8.8" ltac:(discriminate) eq_refl));
      reflexivity.
Defined.

(** C6: for every address argument that is empty or no str, the specific-IP
    lookup prints the invalid-address line, returns None and makes no
    network call; for every non-empty str it makes exactly one. *)
Theorem specific_lookup_validates_address {R : Runtime}
  (network : string -> Z -> res response) (self : t) :
  (forall ip_address,
     truthy ip_address = false \/ isinstance_str ip_address = false ->
     get_specific_ip_info network self ip_address =
     (Ok PNone, [Print "Error: Invalid IP address format."]) /\
     network_calls (snd (get_specific_ip_info network self ip_address)) = 0) /\
  (forall s, s <> "" ->
     network_calls (snd (get_specific_ip_info network self (PStr s))) = 1).
Proof.
  split.
  - intros ip_address H.
    rewrite (get_specific_ip_info_invalid network self ip_address H).
    split; reflexivity.
  - intros s Hs.
    destruct (get_specific_ip_info_one_call network self s Hs)
      as (rest & -> & Hrest).
    unfold network_calls in *. cbn [filter is_http_get List.length].
    rewrite Hrest. reflexivity.
Qed.

(** The empty address, the null address and the address 8.8.8.8. *)
Lemma specific_lookup_validates_address_witness :
  get_specific_ip_info (R := example_runtime)
    (answers (with_status 200)) test_client (PStr "")
  = (Ok PNone, [Print "Error: Invalid IP address format."]) /\
  get_specific_ip_info (R := example_runtime)
    (answers (with_status 200)) test_client PNone
  = (Ok PNone, [Print "Error: Invalid IP address format."]) /\
  network_calls
    (snd (get_specific_ip_info (R := example_runtime)
            (answers (with_status 200)) test_client (PStr "8.8.8.8"))) = 1.
Proof.
  pose proof (@specific_lookup_validates_address example_runtime
                (answers (with_status 200)) test_client) as [Hbad Hgood].
  split; [|split].
  - apply (Hbad (PStr "")). left. reflexivity.
  - apply (Hbad PNone). right. reflexivity.
  - apply (Hgood "8.8.8.8"). discriminate.
Defined.

(** ** Further properties *)

(** X1: the validator answers true exactly for a raw response that is a
    non-empty mapping with the key ip_address; null and the empty mapping
    are invalid. *)
Theorem validate_response_contract :
  validate_response PNone = Ok false /\
  validate_response (PDict []) = Ok false /\
  validate_response (PDict [("city", PStr "Test")]) = Ok false /\
  (forall raw : dict,
     validate_response (PDict raw) = Ok (has_key "ip_address" raw)) /\
  has_key "ip_address" [] = false.
Proof. repeat split. exact validate_response_dict. Qed.

(** The end-to-end scenario: the sample response gives the address
    8.8.8.8, the version IPv4, the ISP Google LLC, the ASN as the string
    15169 and the threat level Clean, whatever the runtime. *)
Example sample_response_scenario {R : Runtime} :
  exists out,
    process_all_data (PDict sample_response) = Ok out /\
    field_of out "basic" "IP Address" = Some (PStr "8.8.8.8") /\
    field_of out "basic" "IP Version" = Some (PStr "IPv4") /\
    field_of out "basic" "City" = Some (PStr "Mountain View") /\
    field_of out "connection" "ISP" = Some (PStr "Google LLC") /\
    field_of out "connection" "ASN" = Some (PStr "15169") /\
    field_of out "security" "Threat Level" = Some (PStr "Clean").
Proof. eexists. repeat split. Qed.

(** The threat levels of the test suite, of all four flags together
    (still Medium), of the empty security group, and of a flag that is a
    number and counts by its truthiness. *)
Example assess_threat_level_samples :
  _assess_threat_level
    (PDict [ ("is_vpn", PBool false); ("is_proxy", PBool false);
             ("is_tor", PBool false); ("is_relay", PBool false) ])
  = Ok "Clean" /\
  _assess_threat_level
    (PDict [ ("is_vpn", PBool true); ("is_proxy", PBool false);
             ("is_tor", PBool false); ("is_relay", PBool false) ])
  = Ok "Low (VPN detected)" /\
  _assess_threat_level
    (PDict [ ("is_vpn", PBool true); ("is_proxy", PBool true);
             ("is_tor", PBool false); ("is_relay", PBool false) ])
  = Ok "Medium (Multiple: VPN, Proxy)" /\
  _assess_threat_level
    (PDict [ ("is_vpn", PBool true); ("is_proxy", PBool true);
             ("is_tor", PBool true); ("is_relay", PBool true) ])
  = Ok "Medium (Multiple: VPN, Proxy, Tor, Relay)" /\
  _assess_threat_level (PDict []) = Ok "Clean" /\
  _assess_threat_level (PDict [("is_tor", PInt 1); ("is_vpn", PInt 0)])
  = Ok "Low (Tor detected)".
Proof. repeat split. Qed.

(** X2: when the request itself fails, a lookup has made that one request,
    returns None and prints the line of the failure: the timeout line, the
    connection line, or the line that quotes an unexpected request
    failure.  An exception of any other class is caught by neither lookup:
    it leaves the lookup after that one request, with nothing printed. *)
Theorem lookup_transport_failures {R : Runtime} (self : t) (s msg : string) :
  s <> "" ->
  get_current_ip_info (raises (Timeout msg)) self =
  (Ok PNone,
   [ HttpGet (current_url self) (timeout self);
     Print "Error: Request timed out. Please check your internet connection."
   ]) /\
  get_current_ip_info (raises (ConnectionError msg)) self =
  (Ok PNone,
   [ HttpGet (current_url self) (timeout self);
     Print
       "Error: Could not connect to API. Please check your internet connection."
   ]) /\
  get_current_ip_info (raises (RequestException msg)) self =
  (Ok PNone,
   [ HttpGet (current_url self) (timeout self);
     Print ("Error: An unexpected error occurred: " ++ msg) ]) /\
  get_specific_ip_info (raises (Timeout msg)) self (PStr s) =
  (Ok PNone,
   [ HttpGet (specific_url self s) (timeout self);
     Print "Error: Request timed out. Please check your internet connection."
   ]) /\
  get_specific_ip_info (raises (ConnectionError msg)) self (PStr s) =
  (Ok PNone,
   [ HttpGet (specific_url self s) (timeout self);
     Print
       "Error: Could not connect to API. Please check your internet connection."
   ]) /\
  get_specific_ip_info (raises (RequestException msg)) self (PStr s) =
  (Ok PNone,
   [ HttpGet (specific_url self s) (timeout self);
     Print ("Error: An unexpected error occurred: " ++ msg) ]) /\
  (forall e, is_requests_exception e = false ->
     get_current_ip_info (raises e) self =
     (Raise e, [HttpGet (current_url self) (timeout self)]) /\
     get_specific_ip_info (raises e) self (PStr s) =
     (Raise e, [HttpGet (specific_url self s) (timeout self)])).
Proof.
  intros Hs. apply String.eqb_neq in Hs.
  assert (Hspecific : forall e,
             get_specific_ip_info (raises e) self (PStr s) =
             (let (r, t') := handler e in
              (r, HttpGet (specific_url self s) (timeout self) :: t'))).
  { intros e. unfold get_specific_ip_info.
    cbn [truthy isinstance_str negb orb]. rewrite Hs. reflexivity. }
  repeat (split; [first [reflexivity | rewrite Hspecific; reflexivity]|]).
  intros e He. rewrite Hspecific.
  destruct e; try discriminate He; split; reflexivity.
Qed.

(** A lookup of 8.8.8.8 by the client of the test suite: timed out, and
    interrupted by an exception that is no request failure. *)
Lemma lookup_transport_failures_witness :
  get_specific_ip_info (R := example_runtime) (raises (Timeout "timed out"))
    test_client (PStr "8.8.8.8") =
  (Ok PNone,
   [ HttpGet (specific_url test_client "8.8.8.8") 10;
     Print "Error: Request timed out. Please check your internet connection."
   ]) /\
  get_specific_ip_info (R := example_runtime) (raises TypeError)
    test_client (PStr "8.8.8.8") =
  (Raise TypeError, [HttpGet (specific_url test_client "8.8.8.8") 10]).
Proof.
  pose proof (@lookup_transport_failures example_runtime test_client
                "8.8.8.8" "timed out" ltac:(discriminate)) as H.
  split.
  - apply H.
  - apply (proj2 (proj2 (proj2 (proj2 (proj2 (proj2 H))))) TypeError).
    reflexivity.
Defined.

(** X3: a current-IP lookup makes exactly one network call, whatever the
    network answers or raises. *)
Theorem current_lookup_one_call
  (network : string -> Z -> res response) (self : t) :
  network_calls (snd (get_current_ip_info network self)) = 1.
Proof.
  destruct (network (current_url self) (timeout self)) as [r|e] eqn:H.
  - rewrite (get_current_ip_info_response network self r H).
    destruct (status_code r =? 200)%Z; [|reflexivity].
    unfold try_except. destruct (json r) as [body|e]; [reflexivity|].
    destruct e; reflexivity.
  - unfold get_current_ip_info, requests_get.
    fold (current_url self). rewrite H.
    destruct e; reflexivity.
Qed.

(** The client cannot be made without a credential: a missing or empty
    ABSTRACT_API_KEY raises ValueError; any other key gives a client with
    that key, the fixed base URL and a timeout of ten seconds, as the test
    suite checks. *)
Example init_requires_api_key :
  (forall getenv : string -> option string,
     getenv "ABSTRACT_API_KEY" = None \/ getenv "ABSTRACT_API_KEY" = Some "" ->
     exists msg, __init__ getenv = Raise (ValueError msg)) /\
  (forall (getenv : string -> option string) (k : string),
     getenv "ABSTRACT_API_KEY" = Some k -> k <> "" ->
     __init__ getenv =
     Ok {| api_key := k;
           base_url := "https://ipgeolocation.abstractapi.com/v1/";
           timeout := 10 |}) /\
  __init__ (fun _ => Some "test_api_key_12345") = Ok test_client /\
  exists msg, __init__ (fun _ => None) = Raise (ValueError msg).
Proof.
  split; [|split; [|split; [reflexivity | eexists; reflexivity]]].
  - intros getenv [H|H]; unfold __init__; rewrite H; eexists; reflexivity.
  - intros getenv k H Hk. unfold __init__. rewrite H.
    destruct k; [contradiction | reflexivity].
Qed.

(** The environment of the test suite, and an environment whose key is
    empty. *)
Lemma init_requires_api_key_witness :
  __init__ (fun _ => Some "test_api_key_12345") =
  Ok {| api_key := "test_api_key_12345";
        base_url := "https://ipgeolocation.abstractapi.com/v1/";
        timeout := 10 |} /\
  exists msg, __init__ (fun _ => Some "") = Raise (ValueError msg).
Proof.
  split.
  - apply (proj1 (proj2 init_requires_api_key)
             (fun _ => Some "test_api_key_12345") "test_api_key_12345");
      [reflexivity | discriminate].
  - apply (proj1 init_requires_api_key (fun _ => Some "")).
    right. reflexivity.
Defined.

(** ** What the transformer reads and what it returns *)

Section Reads.
Context {R : Runtime}.

Lemma agree_getd (keys : list string) (d1 d2 : dict) (k : string)
  (default : pyval) :
  agree_on keys d1 d2 -> In k keys -> getd d1 k default = getd d2 k default.
Proof. intros H Hk. unfold getd. rewrite (H k Hk). reflexivity. Qed.

Lemma lookup_project (fields : list field) (source : dict) (default : pyval)
  (f : field) :
  NoDup (map label fields) -> In f fields ->
  lookup (label f) (project fields source default)
  = Some (snd (read source default f)).
Proof.
  induction fields as [|g fields IH]; intros Hnd Hin; [contradiction|].
  cbn [map] in Hnd. apply NoDup_cons_iff in Hnd. destruct Hnd as [Hg Hnd].
  cbn [project map lookup read fst].
  destruct Hin as [->|Hin].
  - rewrite String.eqb_refl. reflexivity.
  - destruct (String.eqb_spec (label g) (label f)) as [E|_].
    + exfalso. apply Hg. rewrite E. apply in_map. exact Hin.
    + apply (IH Hnd Hin).
Qed.

Lemma process_all_data_six (raw : dict) :
  has_key "ip_address" raw = true -> well_shaped raw = true ->
  exists out, process_all_data (PDict raw) = Ok out /\ six_categories out.
Proof.
  intros Hk Hw.
  destruct (process_all_data_well_shaped raw Hk Hw)
    as (version & conn & tz & sec & cur & fl & _ & _ & _ & _ & _ & _ & Hout).
  eexists. split; [exact Hout|].
  do 6 eexists. split; [reflexivity|].
  rewrite map_app, !project_labels.
  cbn [map fst]. rewrite !project_labels.
  repeat split.
Qed.

(** Whenever the transformer returns, on any value, the result is the
    empty mapping or the six categories. *)
Lemma process_all_data_result (raw out : pyval) :
  process_all_data raw = Ok out ->
  (out = PDict [] /\ truthy out = false) \/
  (six_categories out /\ truthy out = true /\
   exists d, raw = PDict d /\ has_key "ip_address" d = true /\
             well_shaped d = true).
Proof.
  intros Hout.
  destruct raw as [| b | z | f | s | l | d].
  - injection Hout as <-. left. split; reflexivity.
  - unfold process_all_data, validate_response in Hout.
    destruct b; cbn in Hout; [discriminate Hout|].
    injection Hout as <-. left. split; reflexivity.
  - unfold process_all_data, validate_response in Hout.
    cbn [truthy] in Hout.
    destruct (negb (negb (z =? 0)%Z)); cbn in Hout; [|discriminate Hout].
    injection Hout as <-. left. split; reflexivity.
  - unfold process_all_data, validate_response in Hout.
    cbn [truthy] in Hout.
    destruct (negb (negb (PrimFloat.eqb f 0))); cbn in Hout;
      [|discriminate Hout].
    injection Hout as <-. left. split; reflexivity.
  - unfold process_all_data, validate_response in Hout.
    cbn [truthy] in Hout.
    destruct (negb (negb (s =? ""))); cbn [bind negb] in Hout.
    + injection Hout as <-. left. split; reflexivity.
    + unfold required_fields, check_required in Hout.
      cbn [contains bind] in Hout.
      destruct (str_contains "ip_address" s); cbn in Hout;
        [discriminate Hout|].
      injection Hout as <-. left. split; reflexivity.
  - unfold process_all_data, validate_response in Hout.
    cbn [truthy] in Hout.
    destruct l as [|x l]; cbn [bind negb] in Hout.
    + injection Hout as <-. left. split; reflexivity.
    + unfold required_fields, check_required in Hout.
      cbn [contains bind] in Hout.
      destruct (existsb (str_eq_val "ip_address") (x :: l)); cbn in Hout;
        [discriminate Hout|].
      injection Hout as <-. left. split; reflexivity.
  - destruct (has_key "ip_address" d) eqn:Hk.
    + destruct (well_shaped d) eqn:Hw.
      * right.
        destruct (process_all_data_six d Hk Hw) as (out' & Hout' & Hsix).
        rewrite Hout' in Hout. injection Hout as <-.
        split; [exact Hsix|]. split.
        -- destruct Hsix as (? & ? & ? & ? & ? & ? & -> & _). reflexivity.
        -- exists d. repeat split; assumption.
      * destruct (process_all_data_ill_shaped d Hk Hw) as [e He].
        rewrite He in Hout. discriminate Hout.
    + rewrite (process_all_data_invalid d Hk) in Hout.
      injection Hout as <-. left. split; reflexivity.
Qed.

End Reads.

Section Frame.
Context {R : Runtime}.
Variables d1 d2 : dict.
Hypothesis Hagree : agree_on used_keys d1 d2.

Ltac known_key :=
  unfold used_keys, top_level_keys, group_keys, basic_fields;
  cbn [map key app In]; tauto.

Ltac same_reads :=
  rewrite !get_dict; unfold getd;
  repeat match goal with
         | |- context [lookup ?k d1] =>
             rewrite (Hagree k) by known_key
         end.

Lemma agree_has_address :
  has_key "ip_address" d1 = has_key "ip_address" d2.
Proof. unfold has_key. rewrite (Hagree "ip_address") by known_key. reflexivity. Qed.

Lemma agree_basic :
  extract_basic_info (PDict d1) = extract_basic_info (PDict d2).
Proof. unfold extract_basic_info. same_reads. reflexivity. Qed.

Lemma agree_connection :
  extract_connection_info (PDict d1) = extract_connection_info (PDict d2).
Proof. unfold extract_connection_info. same_reads. reflexivity. Qed.

Lemma agree_timezone :
  extract_timezone_info (PDict d1) = extract_timezone_info (PDict d2).
Proof. unfold extract_timezone_info. same_reads. reflexivity. Qed.

Lemma agree_security :
  extract_security_info (PDict d1) = extract_security_info (PDict d2).
Proof. unfold extract_security_info. same_reads. reflexivity. Qed.

Lemma agree_currency :
  extract_currency_info (PDict d1) = extract_currency_info (PDict d2).
Proof. unfold extract_currency_info. same_reads. reflexivity. Qed.

Lemma agree_flag :
  extract_flag_info (PDict d1) = extract_flag_info (PDict d2).
Proof. unfold extract_flag_info. same_reads. reflexivity. Qed.

End Frame.

(** X4: the transformer reads fourteen top-level keys and nothing else: two
    raw responses that bind ip_address, the eight location keys and the five
    groups alike give the same result, whatever else they hold. *)
Theorem process_all_data_reads_only_known_keys {R : Runtime}
  (raw1 raw2 : dict) :
  agree_on used_keys raw1 raw2 ->
  process_all_data (PDict raw1) = process_all_data (PDict raw2).
Proof.
  intros H. unfold process_all_data.
  rewrite !validate_response_dict, (agree_has_address raw1 raw2 H).
  rewrite (agree_basic raw1 raw2 H), (agree_connection raw1 raw2 H),
    (agree_timezone raw1 raw2 H), (agree_security raw1 raw2 H),
    (agree_currency raw1 raw2 H), (agree_flag raw1 raw2 H).
  reflexivity.
Qed.

(** The sample response with a key the transformer does not know put in
    front. *)
Lemma process_all_data_reads_only_known_keys_witness :
  process_all_data (R := example_runtime)
    (PDict (("request_id", PInt 7) :: sample_response)) =
  process_all_data (R := example_runtime) (PDict sample_response).
Proof.
  apply (@process_all_data_reads_only_known_keys example_runtime).
  intros k Hk. cbn [lookup].
  destruct (String.eqb_spec "request_id" k) as [<-|_]; [|reflexivity].
  exfalso. cbn in Hk.
  repeat (destruct Hk as [Hk|Hk]; [discriminate Hk|]). exact Hk.
Defined.

(** X5: whenever the transformer returns, on any JSON value, the result is
    all or nothing: the empty mapping, which is falsy, or the six categories
    with all their labels, which happens only for a mapping that has the key
    ip_address and the shape the extraction relies on. *)
Theorem process_all_data_all_or_nothing {R : Runtime} (raw out : pyval) :
  process_all_data raw = Ok out ->
  (out = PDict [] /\ truthy out = false) \/
  (six_categories out /\ truthy out = true /\
   exists d, raw = PDict d /\ has_key "ip_address" d = true /\
             well_shaped d = true).
Proof. exact (process_all_data_result raw out). Qed.

(** A list that holds the required key as an element is no valid response
    and gives nothing; the sample response gives the six categories. *)
Lemma process_all_data_all_or_nothing_witness :
  ((PDict [] = PDict [] /\ truthy (PDict []) = false) \/
   (six_categories (PDict []) /\ truthy (PDict []) = true /\
    exists d, PList [PStr "city"] = PDict d /\
              has_key "ip_address" d = true /\ well_shaped d = true)) /\
  ((sample_output = PDict [] /\ truthy sample_output = false) \/
   (six_categories sample_output /\ truthy sample_output = true /\
    exists d, PDict sample_response = PDict d /\
              has_key "ip_address" d = true /\ well_shaped d = true)).
Proof.
  split.
  - apply (@process_all_data_all_or_nothing example_runtime
             (PList [PStr "city"]) (PDict [])).
    reflexivity.
  - apply (@process_all_data_all_or_nothing example_runtime
             (PDict sample_response) sample_output).
    reflexivity.
Defined.

(** X6: a key that is present keeps its value in the output, null or of an
    unexpected type included: only an absent key gives the sentinel.  Rows
    that go through [str] show the text of the value, so null shows as the
    string None. *)
Theorem present_value_wins {R : Runtime} (raw : dict) (out : pyval) :
  process_all_data (PDict raw) = Ok out ->
  has_key "ip_address" raw = true ->
  (forall f v, In f basic_fields -> lookup (key f) raw = Some v ->
     field_of out "basic" (label f) = Some (rendered f v)) /\
  (forall g fields grp f v,
     In (g, fields) group_tables -> lookup g raw = Some (PDict grp) ->
     In f fields -> lookup (key f) grp = Some v ->
     field_of out g (label f) = Some (rendered f v)) /\
  (forall grp f v,
     lookup "security" raw = Some (PDict grp) ->
     In f security_flags -> lookup (key f) grp = Some v ->
     field_of out "security" (label f) = Some v) /\
  (forall g fields grp f,
     In (g, fields) group_tables -> lookup g raw = Some (PDict grp) ->
     In f fields -> lookup (key f) grp = None ->
     field_of out g (label f) = Some sentinel).
Proof.
  intros Hout Hk.
  destruct (well_shaped raw) eqn:Hw;
    [|destruct (process_all_data_ill_shaped raw Hk Hw) as [e He];
      rewrite He in Hout; discriminate Hout].
  destruct (process_all_data_well_shaped raw Hk Hw)
    as (version & conn & tz & sec & cur & fl
        & _ & Hc & Ht & Hs & Hcu & Hf & Hout').
  rewrite Hout' in Hout. injection Hout as <-.
  unfold group, getd in Hc, Ht, Hs, Hcu, Hf.
  assert (Hgroup : forall g fields grp,
             In (g, fields) group_tables -> lookup g raw = Some (PDict grp) ->
             forall f, In f fields ->
             field_of
               (PDict
                  [ ("basic",
                     PDict (("IP Address", getd raw "ip_address" sentinel)
                            :: ("IP Version", PStr version)
                            :: project basic_fields raw sentinel));
                    ("connection",
                     PDict (project connection_fields conn sentinel));
                    ("timezone", PDict (project timezone_fields tz sentinel));
                    ("security",
                     PDict (project security_flags sec (PBool false)
                            ++ [("Threat Level",
                                 PStr (threat_label (set_flags sec)))]));
                    ("currency", PDict (project currency_fields cur sentinel));
                    ("flag", PDict (project flag_fields fl sentinel)) ])
               g (label f)
             = Some (snd (read grp sentinel f))).
  { intros g fields grp Hg Hl f Hin.
    cbn in Hg.
    destruct Hg as [Hg|[Hg|[Hg|[Hg|[]]]]]; injection Hg as <- <-;
      rewrite Hl in *;
      [ injection Hc as <- | injection Ht as <-
      | injection Hcu as <- | injection Hf as <- ];
      cbn [field_of lookup String.eqb Ascii.eqb Bool.eqb];
      (apply lookup_project; [|exact Hin]);
      cbn; repeat constructor; cbn; intuition discriminate. }
  split; [|split; [|split]].
  - intros f v Hin Hv.
    cbn in Hin.
    decompose [or] Hin; try contradiction; subst f;
      cbn in Hv |- *; unfold getd; rewrite Hv; reflexivity.
  - intros g fields grp f v Hg Hl Hin Hv.
    transitivity (Some (snd (read grp sentinel f)));
      [exact (Hgroup g fields grp Hg Hl f Hin)|].
    unfold read, rendered, getd. cbn [snd]. rewrite Hv. reflexivity.
  - intros grp f v Hl Hin Hv.
    rewrite Hl in Hs. injection Hs as <-.
    cbn in Hin.
    decompose [or] Hin; try contradiction; subst f;
      cbn in Hv |- *; unfold getd; rewrite Hv; reflexivity.
  - intros g fields grp f Hg Hl Hin Hv.
    transitivity (Some (snd (read grp sentinel f)));
      [exact (Hgroup g fields grp Hg Hl f Hin)|].
    unfold read, getd. cbn [snd]. rewrite Hv.
    destruct (stringified f); reflexivity.
Qed.

(** A response whose city and GMT offset are null. *)
Lemma present_value_wins_witness :
  exists out,
    process_all_data (R := example_runtime)
      (PDict [ ("ip_address", PStr "8.8.8.8"); ("city", PNone);
               ("timezone", PDict [("gmt_offset", PNone)]) ]) = Ok out /\
    field_of out "basic" "City" = Some PNone /\
    field_of out "timezone" "GMT Offset" = Some (PStr "None") /\
    field_of out "timezone" "Is DST" = Some sentinel.
Proof.
  eexists. split; [reflexivity|].
  pose proof (@present_value_wins example_runtime
                [ ("ip_address", PStr "8.8.8.8"); ("city", PNone);
                  ("timezone", PDict [("gmt_offset", PNone)]) ]
                _ eq_refl eq_refl) as (Hbasic & Hgroup & _ & Habsent).
  split; [|split].
  - apply (Hbasic {| label := "City"; key := "city"; stringified := false |}
             PNone); [cbn; tauto | reflexivity].
  - apply (Hgroup "timezone" timezone_fields [("gmt_offset", PNone)]
             {| label := "GMT Offset"; key := "gmt_offset";
                stringified := true |} PNone);
      [cbn; tauto | reflexivity | cbn; tauto | reflexivity].
  - apply (Habsent "timezone" timezone_fields [("gmt_offset", PNone)]
             {| label := "Is DST"; key := "is_dst"; stringified := true |});
      [cbn; tauto | reflexivity | cbn; tauto | reflexivity].
Defined.

(** X7: the threat level tells which flags are set: two security groups
    with the same threat level have the same flags set. *)
Theorem threat_level_identifies_flags (security1 security2 : dict) :
  _assess_threat_level (PDict security1)
  = _assess_threat_level (PDict security2) ->
  flag_set security1 "is_vpn" = flag_set security2 "is_vpn" /\
  flag_set security1 "is_proxy" = flag_set security2 "is_proxy" /\
  flag_set security1 "is_tor" = flag_set security2 "is_tor" /\
  flag_set security1 "is_relay" = flag_set security2 "is_relay".
Proof.
  rewrite !assess_threat_level_dict. unfold set_flags.
  destruct (flag_set security1 "is_vpn"), (flag_set security1 "is_proxy"),
    (flag_set security1 "is_tor"), (flag_set security1 "is_relay"),
    (flag_set security2 "is_vpn"), (flag_set security2 "is_proxy"),
    (flag_set security2 "is_tor"), (flag_set security2 "is_relay");
    intros H; try (repeat split; reflexivity);
    vm_compute in H; discriminate H.
Qed.

(** Two groups that set the VPN flag alone, one with a boolean and one with
    a number. *)
Lemma threat_level_identifies_flags_witness :
  flag_set [("is_vpn", PBool true)] "is_vpn"
  = flag_set [("is_vpn", PInt 1); ("is_tor", PInt 0)] "is_vpn" /\
  flag_set [("is_vpn", PBool true)] "is_proxy"
  = flag_set [("is_vpn", PInt 1); ("is_tor", PInt 0)] "is_proxy" /\
  flag_set [("is_vpn", PBool true)] "is_tor"
  = flag_set [("is_vpn", PInt 1); ("is_tor", PInt 0)] "is_tor" /\
  flag_set [("is_vpn", PBool true)] "is_relay"
  = flag_set [("is_vpn", PInt 1); ("is_tor", PInt 0)] "is_relay".
Proof.
  apply (threat_level_identifies_flags
           [("is_vpn", PBool true)] [("is_vpn", PInt 1); ("is_tor", PInt 0)]).
  reflexivity.
Defined.

(** ** The connectivity check and the web routes *)

Lemma network_calls_app (t1 t2 : list event) :
  network_calls (t1 ++ t2) = network_calls t1 + network_calls t2.
Proof.
  unfold network_calls. rewrite filter_app. apply length_app.
Qed.

Lemma io_bind_ok {A B} (a : A) (t : list event) (f : A -> io B) :
  io_bind (Ok a, t) f = (fst (f a), (t ++ snd (f a))%list).
Proof. cbn. destruct (f a). reflexivity. Qed.

Lemma try_except_raise {A} (e : exn) (t : list event) (h : exn -> io A) :
  try_except (Raise e, t) h = (fst (h e), (t ++ snd (h e))%list).
Proof. cbn. destruct (h e). reflexivity. Qed.

Lemma get_current_ip_info_one_call
  (network : string -> Z -> res response) (self : t) :
  exists rest,
    snd (get_current_ip_info network self) =
    HttpGet (current_url self) (timeout self) :: rest /\
    network_calls rest = 0.
Proof.
  destruct (network (current_url self) (timeout self)) as [r|e] eqn:H.
  - rewrite (get_current_ip_info_response network self r H).
    destruct (status_code r =? 200)%Z; [|eexists; split; reflexivity].
    unfold try_except. destruct (json r) as [body|e].
    + eexists; split; reflexivity.
    + destruct (handler e) as [out trace] eqn:He. cbn [snd app].
      eexists; split; [reflexivity|].
      change trace with (snd (out, trace)). rewrite <- He.
      apply handler_no_call.
  - unfold get_current_ip_info, requests_get.
    fold (current_url self). rewrite H. cbn [io_bind try_except].
    destruct (handler e) as [out trace] eqn:He. cbn [snd app].
    eexists; split; [reflexivity|].
    change trace with (snd (out, trace)). rewrite <- He.
    apply handler_no_call.
Qed.

(** X8: the connectivity check never raises: it makes exactly one request,
    with a timeout of five seconds, prints exactly one line, and returns
    True exactly when the request is answered with status 200. *)
Theorem test_connection_outcome (interpreter_text : exn -> string)
  (network : string -> Z -> res response) (self : t) :
  exists line,
    AbstractAPIClient.test_connection interpreter_text network self =
    (Ok (reachable network self),
     [HttpGet (current_url self) 5; Print line]).
Proof.
  unfold AbstractAPIClient.test_connection, reachable, requests_get.
  fold (current_url self).
  destruct (network (current_url self) 5%Z) as [r|e].
  - cbn [io_bind].
    destruct (status_code r =? 200)%Z; eexists; reflexivity.
  - eexists. reflexivity.
Qed.

Section RouteProofs.
Context {R : Runtime}.
Variable interpreter_text : exn -> string.
Variable strip : string -> string.
Variable network : string -> Z -> res response.

Lemma current_lookup_calls (client : t) (r : res pyval) (t0 : list event) :
  get_current_ip_info network client = (r, t0) -> network_calls t0 = 1.
Proof.
  intros E.
  destruct (get_current_ip_info_one_call network client)
    as (rest & Hs & Hrest).
  rewrite E in Hs. cbn [snd] in Hs. subst t0.
  unfold network_calls in *. cbn [filter is_http_get List.length].
  rewrite Hrest. reflexivity.
Qed.

Lemma specific_lookup_calls (client : t) (s : string) (r : res pyval)
  (t0 : list event) :
  s <> "" ->
  get_specific_ip_info network client (PStr s) = (r, t0) ->
  network_calls t0 = 1.
Proof.
  intros Hne E.
  destruct (get_specific_ip_info_one_call network client s Hne)
    as (rest & Hs & Hrest).
  rewrite E in Hs. cbn [snd] in Hs. subst t0.
  unfold network_calls in *. cbn [filter is_http_get List.length].
  rewrite Hrest. reflexivity.
Qed.

Lemma truthy_six_categories (raw out : pyval) :
  process_all_data raw = Ok out -> truthy out = true -> six_categories out.
Proof.
  intros P T.
  destruct (process_all_data_result raw out P) as [[_ F]|[S _]];
    [congruence | exact S].
Qed.

Lemma get_current_ip_reply (api_client : option t) :
  exists body status trace,
    App.get_current_ip interpreter_text network api_client
    = (Ok (body, status), trace) /\
    network_calls trace <= 1 /\
    ((status = 200%Z /\ is_success body) \/
     (status = 500%Z /\ is_error body)).
Proof.
  destruct api_client as [client|];
    [|do 3 eexists; split; [reflexivity|]; split; [cbn; auto|];
      right; split; [reflexivity | eexists; reflexivity]].
  unfold App.get_current_ip.
  destruct (get_current_ip_info network client) as [[raw|e] t0] eqn:E;
    pose proof (current_lookup_calls client _ _ E) as Hcalls.
  - rewrite io_bind_ok.
    destruct (truthy raw).
    + destruct (process_all_data raw) as [out|e'] eqn:P.
      * unfold lift. rewrite io_bind_ok.
        destruct (truthy out) eqn:T; cbn; rewrite app_nil_r;
          do 3 eexists; (split; [reflexivity|]);
          (split; [rewrite Hcalls; auto|]).
        -- left. split; [reflexivity|].
           eexists. split; [reflexivity|].
           exact (truthy_six_categories raw out P T).
        -- right. split; [reflexivity | eexists; reflexivity].
      * cbn. rewrite !app_nil_r.
        do 3 eexists. split; [reflexivity|].
        split; [rewrite Hcalls; auto|].
        right. split; [reflexivity | eexists; reflexivity].
    + cbn. rewrite app_nil_r.
      do 3 eexists. split; [reflexivity|].
      split; [rewrite Hcalls; auto|].
      right. split; [reflexivity | eexists; reflexivity].
  - cbn. rewrite app_nil_r.
    do 3 eexists. split; [reflexivity|].
    split; [rewrite Hcalls; auto|].
    right. split; [reflexivity | eexists; reflexivity].
Qed.

Lemma lookup_ip_reply (api_client : option t) (request_json : res pyval) :
  exists body status trace,
    App.lookup_ip interpreter_text strip network api_client request_json
    = (Ok (body, status), trace) /\
    network_calls trace <= 1 /\
    ((status = 200%Z /\ is_success body) \/
     (status = 400%Z /\ is_error body /\ trace = []) \/
     (status = 500%Z /\ is_error body)).
Proof.
  destruct api_client as [client|];
    [|do 3 eexists; split; [reflexivity|]; split; [cbn; auto|];
      right; right; split; [reflexivity | eexists; reflexivity]].
  unfold App.lookup_ip, lift.
  destruct request_json as [data|e];
    [|cbn; do 3 eexists; split; [reflexivity|]; split; [cbn; auto|];
      right; right; split; [reflexivity | eexists; reflexivity]].
  rewrite io_bind_ok.
  destruct (get data "ip_address" (PStr "")) as [address|e];
    [|cbn; do 3 eexists; split; [reflexivity|]; split; [cbn; auto|];
      right; right; split; [reflexivity | eexists; reflexivity]].
  rewrite io_bind_ok.
  destruct (App.method_strip strip address) as [ip|e] eqn:Hstrip;
    [|cbn; do 3 eexists; split; [reflexivity|]; split; [cbn; auto|];
      right; right; split; [reflexivity | eexists; reflexivity]].
  rewrite io_bind_ok.
  destruct address; try discriminate Hstrip.
  cbn in Hstrip. injection Hstrip as <-.
  cbn [truthy].
  destruct (String.eqb_spec (strip s) "") as [Hblank|Hne].
  - cbn. do 3 eexists. split; [reflexivity|]. split; [cbn; auto|].
    right; left. repeat split. eexists; reflexivity.
  - cbn [negb].
    destruct (get_specific_ip_info network client (PStr (strip s)))
      as [[raw|e] t0] eqn:E;
      pose proof (specific_lookup_calls client _ _ _ Hne E) as Hcalls.
    + rewrite io_bind_ok.
      destruct (truthy raw).
      * destruct (process_all_data raw) as [out|e'] eqn:P.
        -- rewrite io_bind_ok.
           destruct (truthy out) eqn:T; cbn; rewrite !app_nil_r;
             do 3 eexists; (split; [reflexivity|]);
             (split; [rewrite Hcalls; auto|]).
           ++ left. split; [reflexivity|].
              eexists. split; [reflexivity|].
              exact (truthy_six_categories raw out P T).
           ++ right; right. split; [reflexivity | eexists; reflexivity].
        -- cbn. rewrite !app_nil_r.
           do 3 eexists. split; [reflexivity|].
           split; [rewrite Hcalls; auto|].
           right; right. split; [reflexivity | eexists; reflexivity].
      * cbn. rewrite !app_nil_r.
        do 3 eexists. split; [reflexivity|].
        split; [rewrite Hcalls; auto|].
        right; right. split; [reflexivity | eexists; reflexivity].
    + cbn. rewrite !app_nil_r.
      do 3 eexists. split; [reflexivity|].
      split; [rewrite Hcalls; auto|].
      right; right. split; [reflexivity | eexists; reflexivity].
Qed.

Lemma test_connection_reply (api_client : option t) :
  App.test_connection interpreter_text network api_client =
  match api_client with
  | None => (Ok App.not_initialized, [])
  | Some client =>
      (Ok (if reachable network client
           then (PDict [ ("success", PBool true);
                         ("message", PStr "API connection successful!") ],
                 200%Z)
           else (PDict [ ("success", PBool false);
                         ("message", PStr "API connection failed") ],
                 500%Z)),
       snd (AbstractAPIClient.test_connection interpreter_text network
              client))
  end.
Proof.
  destruct api_client as [client|]; [|reflexivity].
  unfold App.test_connection, AbstractAPIClient.test_connection, reachable,
    requests_get.
  fold (current_url client).
  destruct (network (current_url client) 5%Z) as [r|e]; [|reflexivity].
  cbn [io_bind]. destruct (status_code r =? 200)%Z; reflexivity.
Qed.

End RouteProofs.

Lemma test_connection_calls (interpreter_text : exn -> string)
  (network : string -> Z -> res response) (client : t) :
  network_calls
    (snd (AbstractAPIClient.test_connection interpreter_text network client))
  = 1.
Proof.
  unfold AbstractAPIClient.test_connection, requests_get.
  destruct (network (base_url client ++ "?api_key=" ++ api_key client) 5%Z)
    as [r|e]; [|reflexivity].
  cbn [io_bind]. destruct (status_code r =? 200)%Z; reflexivity.
Qed.

(** X9: no route of the web API lets an exception out, and each makes at
    most one network call.  A lookup route answers 200 with the six
    categories as data, or 500 with one error message, or, for the
    specific-IP route, 400 with one error message and no effect at all.  The
    connectivity route answers 200 exactly when the upstream answers 200,
    and 500 otherwise. *)
Theorem routes_always_reply {R : Runtime} (interpreter_text : exn -> string)
  (strip : string -> string) (network : string -> Z -> res response)
  (api_client : option t) (request_json : res pyval) :
  (exists body status trace,
     App.get_current_ip interpreter_text network api_client
     = (Ok (body, status), trace) /\
     network_calls trace <= 1 /\
     ((status = 200%Z /\ is_success body) \/
      (status = 500%Z /\ is_error body))) /\
  (exists body status trace,
     App.lookup_ip interpreter_text strip network api_client request_json
     = (Ok (body, status), trace) /\
     network_calls trace <= 1 /\
     ((status = 200%Z /\ is_success body) \/
      (status = 400%Z /\ is_error body /\ trace = []) \/
      (status = 500%Z /\ is_error body))) /\
  (exists body status trace,
     App.test_connection interpreter_text network api_client
     = (Ok (body, status), trace) /\
     network_calls trace <= 1 /\
     match api_client with
     | Some client =>
         status = (if reachable network client then 200%Z else 500%Z) /\
         exists msg,
           body = PDict [ ("success", PBool (reachable network client));
                          ("message", PStr msg) ]
     | None => status = 500%Z /\ is_error body
     end).
Proof.
  split; [apply get_current_ip_reply|].
  split; [apply lookup_ip_reply|].
  rewrite test_connection_reply.
  destruct api_client as [client|].
  - pose proof (test_connection_calls interpreter_text network client)
      as Hcalls.
    destruct (reachable network client);
      do 3 eexists; (split; [reflexivity|]);
      (split; [rewrite Hcalls; auto|]);
      (split; [reflexivity | eexists; reflexivity]).
  - do 3 eexists. split; [reflexivity|]. split; [cbn; auto|].
    split; [reflexivity | eexists; reflexivity].
Qed.

(** X10: the specific-IP route checks the request before it touches the
    network.  A request whose address is absent or blank once stripped is
    answered 400; a request that is no mapping, or whose address is no str,
    or that cannot be read, is answered 500; none of them makes a network
    call or prints.  Any other request makes exactly one call, for the
    stripped address. *)
Theorem lookup_ip_checks_request {R : Runtime}
  (interpreter_text : exn -> string) (strip : string -> string)
  (network : string -> Z -> res response) (client : t) :
  (forall d s,
     getd d "ip_address" (PStr "") = PStr s -> strip s = "" ->
     App.lookup_ip interpreter_text strip network (Some client)
       (Ok (PDict d))
     = (Ok (PDict [("error", PStr "No IP address provided")], 400%Z), [])) /\
  (forall d,
     isinstance_str (getd d "ip_address" (PStr "")) = false ->
     App.lookup_ip interpreter_text strip network (Some client)
       (Ok (PDict d))
     = (Ok (PDict [("error",
                    PStr ("An error occurred: "
                          ++ interpreter_text AttributeError))], 500%Z),
        [])) /\
  (forall data,
     is_dict data = false ->
     App.lookup_ip interpreter_text strip network (Some client) (Ok data)
     = (Ok (PDict [("error",
                    PStr ("An error occurred: "
                          ++ interpreter_text AttributeError))], 500%Z),
        [])) /\
  (forall e,
     App.lookup_ip interpreter_text strip network (Some client) (Raise e)
     = (Ok (PDict [("error",
                    PStr ("An error occurred: "
                          ++ exn_str interpreter_text e))], 500%Z),
        [])) /\
  (forall d s,
     getd d "ip_address" (PStr "") = PStr s -> strip s <> "" ->
     exists rest,
       snd (App.lookup_ip interpreter_text strip network (Some client)
              (Ok (PDict d)))
       = HttpGet (specific_url client (strip s)) (timeout client) :: rest /\
       network_calls rest = 0).
Proof.
  split; [|split; [|split; [|split; [reflexivity|]]]].
  - intros d s Hget Hblank. unfold App.lookup_ip, lift.
    cbn [io_bind]. rewrite get_dict, Hget. cbn [io_bind App.method_strip].
    rewrite Hblank. reflexivity.
  - intros d Hstr. unfold App.lookup_ip, lift.
    cbn [io_bind]. rewrite get_dict.
    destruct (getd d "ip_address" (PStr "")); try discriminate Hstr;
      reflexivity.
  - intros data Hd. unfold App.lookup_ip, lift.
    cbn [io_bind]. rewrite (get_not_dict data _ _ Hd). reflexivity.
  - intros d s Hget Hne. unfold App.lookup_ip, lift.
    rewrite io_bind_ok, get_dict, Hget, io_bind_ok.
    cbn [App.method_strip]. rewrite io_bind_ok. cbn [truthy].
    apply String.eqb_neq in Hne. rewrite Hne. cbn [negb].
    apply String.eqb_neq in Hne.
    destruct (get_specific_ip_info_one_call network client (strip s) Hne)
      as (rest & Hs & Hrest).
    destruct (get_specific_ip_info network client (PStr (strip s)))
      as [[raw|e] t0].
    + cbn [snd] in Hs. subst t0. rewrite io_bind_ok.
      destruct (truthy raw).
      * destruct (process_all_data raw) as [out|e'].
        -- rewrite io_bind_ok. destruct (truthy out); cbn;
             rewrite !app_nil_r; eexists; split;
             reflexivity || exact Hrest.
        -- cbn. rewrite !app_nil_r. eexists; split;
             reflexivity || exact Hrest.
      * cbn. rewrite !app_nil_r. eexists; split;
          reflexivity || exact Hrest.
    + cbn [snd] in Hs. subst t0. cbn. rewrite !app_nil_r.
      eexists; split; reflexivity || exact Hrest.
Qed.

(** A request whose address is blank, a request whose address is a number,
    and a request for 8.8.8.8 padded with spaces. *)
Lemma lookup_ip_checks_request_witness :
  App.lookup_ip (R := example_runtime) example_text example_strip
    (answers (with_status 200)) (Some test_client)
    (Ok (PDict [("ip_address", PStr "   ")]))
  = (Ok (PDict [("error", PStr "No IP address provided")], 400%Z), []) /\
  App.lookup_ip (R := example_runtime) example_text example_strip
    (answers (with_status 200)) (Some test_client)
    (Ok (PDict [("ip_address", PInt 8)]))
  = (Ok (PDict [("error",
                 PStr ("An error occurred: " ++ example_text AttributeError))],
         500%Z), []) /\
  exists rest,
    snd (App.lookup_ip (R := example_runtime) example_text example_strip
           (answers (with_status 200)) (Some test_client)
           (Ok (PDict [("ip_address", PStr " 8.8.8.8 ")])))
    = HttpGet (specific_url test_client "8.8.8.8") 10 :: rest /\
    network_calls rest = 0.
Proof.
  pose proof (@lookup_ip_checks_request example_runtime example_text
                example_strip (answers (with_status 200)) test_client)
    as (Hblank & Hnostr & _ & _ & Hcall).
  split; [|split].
  - apply (Hblank [("ip_address", PStr "   ")] "   "); reflexivity.
  - apply (Hnostr [("ip_address", PInt 8)]). reflexivity.
  - apply (Hcall [("ip_address", PStr " 8.8.8.8 ")] " 8.8.8.8 ");
      [reflexivity | discriminate].
Defined.

(** X11: what the current-IP route makes of an upstream answer.  A status
    other than 200 and an empty body are both reported as a failure to
    retrieve; a body without ip_address as a failure to process; a body
    with ip_address and the shape the extraction relies on gives 200 with
    the transformer's six categories; a body with ip_address and any other
    shape makes the transformer raise, which the route turns into a 500
    reply. *)
Theorem current_ip_route_classifies {R : Runtime}
  (interpreter_text : exn -> string)
  (network : string -> Z -> res response) (client : t) (r : response) :
  network (current_url client) (timeout client) = Ok r ->
  (status_code r <> 200%Z ->
   App.get_current_ip interpreter_text network (Some client) =
   (Ok (PDict [("error", PStr "Failed to retrieve IP information")], 500%Z),
    [ HttpGet (current_url client) (timeout client);
      Print (message (classify_current (status_code r)) "") ])) /\
  (forall raw, status_code r = 200%Z -> json r = Ok (PDict raw) ->
   (raw = [] ->
    App.get_current_ip interpreter_text network (Some client) =
    (Ok (PDict [("error", PStr "Failed to retrieve IP information")], 500%Z),
     [HttpGet (current_url client) (timeout client)])) /\
   (raw <> [] -> has_key "ip_address" raw = false ->
    App.get_current_ip interpreter_text network (Some client) =
    (Ok (PDict [("error", PStr "Failed to process API response")], 500%Z),
     [HttpGet (current_url client) (timeout client)])) /\
   (has_key "ip_address" raw = true -> well_shaped raw = true ->
    exists data,
      process_all_data (PDict raw) = Ok data /\ six_categories data /\
      App.get_current_ip interpreter_text network (Some client) =
      (Ok (PDict [("success", PBool true); ("data", data)], 200%Z),
       [HttpGet (current_url client) (timeout client)])) /\
   (has_key "ip_address" raw = true -> well_shaped raw = false ->
    exists e,
      process_all_data (PDict raw) = Raise e /\
      App.get_current_ip interpreter_text network (Some client) =
      (Ok (PDict [("error",
                   PStr ("An error occurred: "
                         ++ exn_str interpreter_text e))], 500%Z),
       [HttpGet (current_url client) (timeout client)]))).
Proof.
  intros Hnet. unfold App.get_current_ip.
  rewrite (get_current_ip_info_response network client r Hnet).
  split.
  - intros Hst. apply Z.eqb_neq in Hst. rewrite Hst. reflexivity.
  - intros raw Hst Hjson. rewrite Hst, Hjson.
    cbn [Z.eqb Pos.eqb try_except io_bind].
    split; [|split; [|split]].
    + intros ->. reflexivity.
    + intros Hne Hk.
      destruct raw as [|kv raw]; [contradiction|]. cbn [truthy].
      unfold lift. rewrite (process_all_data_invalid _ Hk). reflexivity.
    + intros Hk Hw.
      destruct (process_all_data_six raw Hk Hw) as (data & Hd & Hsix).
      exists data. split; [exact Hd|]. split; [exact Hsix|].
      destruct raw as [|kv raw]; [discriminate Hk|]. cbn [truthy].
      unfold lift. rewrite Hd.
      destruct Hsix as (? & ? & ? & ? & ? & ? & -> & _). reflexivity.
    + intros Hk Hw.
      destruct (process_all_data_ill_shaped raw Hk Hw) as [e He].
      exists e. split; [exact He|].
      destruct raw as [|kv raw]; [discriminate Hk|]. cbn [truthy].
      unfold lift. rewrite He. reflexivity.
Qed.

(** The upstream answers with the sample response, and with a response
    whose timezone is null. *)
Lemma current_ip_route_classifies_witness :
  (exists data,
     process_all_data (R := example_runtime) (PDict sample_response)
     = Ok data /\ six_categories data /\
     App.get_current_ip (R := example_runtime) example_text
       (answers {| status_code := 200; json := Ok (PDict sample_response) |})
       (Some test_client) =
     (Ok (PDict [("success", PBool true); ("data", data)], 200%Z),
      [HttpGet (current_url test_client) 10])) /\
  (exists e,
     process_all_data (R := example_runtime)
       (PDict [("ip_address", PStr "8.8.8.8"); ("timezone", PNone)])
     = Raise e /\
     App.get_current_ip (R := example_runtime) example_text
       (answers {| status_code := 200;
                   json := Ok (PDict [ ("ip_address", PStr "8.8.8.8");
                                       ("timezone", PNone) ]) |})
       (Some test_client) =
     (Ok (PDict [("error",
                  PStr ("An error occurred: " ++ exn_str example_text e))],
          500%Z),
      [HttpGet (current_url test_client) 10])).
Proof.
  split.
  - apply (proj1 (proj2 (proj2 (proj2
             (@current_ip_route_classifies example_runtime example_text
                (answers {| status_code := 200;
                            json := Ok (PDict sample_response) |})
                test_client
                {| status_code := 200; json := Ok (PDict sample_response) |}
                eq_refl) sample_response eq_refl eq_refl))));
      reflexivity.
  - apply (proj2 (proj2 (proj2 (proj2
             (@current_ip_route_classifies example_runtime example_text
                (answers {| status_code := 200;
                            json := Ok (PDict [ ("ip_address", PStr "8.8.8.8");
                                                ("timezone", PNone) ]) |})
                test_client
                {| status_code := 200;
                   json := Ok (PDict [ ("ip_address", PStr "8.8.8.8");
                                       ("timezone", PNone) ]) |}
                eq_refl)
             [("ip_address", PStr "8.8.8.8"); ("timezone", PNone)]
             eq_refl eq_refl))));
      reflexivity.
Defined.

(** X12: without a credential the web application still starts: the start
    prints one line and leaves the client unset, and from then on every API
    route answers 500 with the not-initialized message and does nothing
    else.  With a credential the start prints nothing and sets the
    client. *)
Theorem missing_credential_disables_routes {R : Runtime}
  (getenv : string -> option string) :
  (getenv "ABSTRACT_API_KEY" = None \/ getenv "ABSTRACT_API_KEY" = Some "" ->
   (exists line, App.startup getenv = (Ok None, [Print line])) /\
   forall interpreter_text strip network request_json,
     App.get_current_ip interpreter_text network None
     = (Ok App.not_initialized, []) /\
     App.lookup_ip interpreter_text strip network None request_json
     = (Ok App.not_initialized, []) /\
     App.test_connection interpreter_text network None
     = (Ok App.not_initialized, [])) /\
  (forall k, getenv "ABSTRACT_API_KEY" = Some k -> k <> "" ->
   exists client,
     App.startup getenv = (Ok (Some client), []) /\ api_key client = k).
Proof.
  split.
  - intros H. split; [|intros; repeat split].
    unfold App.startup, __init__.
    destruct H as [-> | ->]; eexists; reflexivity.
  - intros k Hk Hne. unfold App.startup, __init__. rewrite Hk.
    destruct k; [contradiction|]. eexists. split; reflexivity.
Qed.

(** An environment without the key, and the environment of the test
    suite. *)
Lemma missing_credential_disables_routes_witness :
  (exists line, App.startup (fun _ => None) = (Ok None, [Print line])) /\
  exists client,
    App.startup (fun _ => Some "test_api_key_12345") = (Ok (Some client), [])
    /\ api_key client = "test_api_key_12345".
Proof.
  split.
  - apply (proj1 (@missing_credential_disables_routes example_runtime
                    (fun _ => None))).
    left. reflexivity.
  - apply (proj2 (@missing_credential_disables_routes example_runtime
                    (fun _ => Some "test_api_key_12345"))
             "test_api_key_12345"); [reflexivity | discriminate].
Defined.

(** ** The console views and the interactive front end *)

Section ViewProofs.
Context {R : Runtime} {C : Colorama}.
Variable now : string -> string.

Lemma print_security_info_flags (sec : dict) :
  exists header,
    print_security_info
      (PDict (project security_flags sec (PBool false)
              ++ [("Threat Level", PStr (threat_label (set_flags sec)))]))
    = (Ok tt,
       header ++
       [ Print (key_value_line "VPN Detected"
                  (yes_no (flag_set sec "is_vpn"))
                  (alarm (flag_set sec "is_vpn") ++ Style_BRIGHT));
         Print (key_value_line "Proxy Detected"
                  (yes_no (flag_set sec "is_proxy"))
                  (alarm (flag_set sec "is_proxy") ++ Style_BRIGHT));
         Print (key_value_line "Tor Detected"
                  (yes_no (flag_set sec "is_tor"))
                  (alarm (flag_set sec "is_tor") ++ Style_BRIGHT));
         Print (key_value_line "Relay Detected"
                  (yes_no (flag_set sec "is_relay"))
                  (alarm (flag_set sec "is_relay") ++ Style_BRIGHT));
         Print (key_value_line "Overall Threat Level"
                  (PStr (threat_label (set_flags sec)))
                  (threat_color (flag_count sec) ++ Style_BRIGHT)) ])%list
    /\ List.length header = 2 /\ forallb is_print header = true.
Proof.
  exists [ Print (nl ++ Fore_YELLOW ++ Style_BRIGHT ++ "▶ "
                  ++ "SECURITY ANALYSIS" ++ Style_RESET_ALL);
           Print (Fore_YELLOW ++ repeat_str "-" 60 ++ Style_RESET_ALL) ].
  split; [|split; reflexivity].
  unfold print_security_info, print_section_header, print_key_value, lift,
    flag_color, flag_text, key_value_line, yes_no, alarm, threat_color,
    flag_count, set_flags, flag_set.
  rewrite !get_dict.
  unfold project, security_flags, read, getd.
  cbn [map label key stringified app lookup String.eqb Ascii.eqb Bool.eqb
       andb fst snd io_bind print io_ret].
  destruct (truthy match lookup "is_vpn" sec with
                   | Some v => v | None => PBool false end),
    (truthy match lookup "is_proxy" sec with
            | Some v => v | None => PBool false end),
    (truthy match lookup "is_tor" sec with
            | Some v => v | None => PBool false end),
    (truthy match lookup "is_relay" sec with
            | Some v => v | None => PBool false end);
    vm_compute; reflexivity.
Qed.

(** A view of a category prints its lines whatever the mapping holds. *)
Ltac view_runs :=
  intros; rewrite ?get_dict;
  cbn [io_bind print io_ret lift print_section_header print_key_value
       fst snd app];
  eexists; split; [reflexivity | split; reflexivity].

Lemma print_basic_info_runs (d : dict) :
  exists trace,
    print_basic_info (PDict d) = (Ok tt, trace) /\
    List.length trace = 11 /\ forallb is_print trace = true.
Proof. unfold print_basic_info, lift. view_runs. Qed.

Lemma print_connection_info_runs (d : dict) :
  exists trace,
    print_connection_info (PDict d) = (Ok tt, trace) /\
    List.length trace = 7 /\ forallb is_print trace = true.
Proof. unfold print_connection_info, lift. view_runs. Qed.

Lemma print_timezone_info_runs (d : dict) :
  exists trace,
    print_timezone_info (PDict d) = (Ok tt, trace) /\
    List.length trace = 7 /\ forallb is_print trace = true.
Proof. unfold print_timezone_info, lift. view_runs. Qed.

Lemma print_currency_info_runs (d : dict) :
  exists trace,
    print_currency_info (PDict d) = (Ok tt, trace) /\
    List.length trace = 5 /\ forallb is_print trace = true.
Proof. unfold print_currency_info, lift. view_runs. Qed.

Lemma print_flag_info_runs (d : dict) :
  exists trace,
    print_flag_info (PDict d) = (Ok tt, trace) /\
    List.length trace = 4 /\ forallb is_print trace = true.
Proof. unfold print_flag_info, lift. view_runs. Qed.

Lemma print_security_info_runs (sec : dict) :
  exists trace,
    print_security_info
      (PDict (project security_flags sec (PBool false)
              ++ [("Threat Level", PStr (threat_label (set_flags sec)))]))
    = (Ok tt, trace) /\
    List.length trace = 7 /\ forallb is_print trace = true.
Proof.
  destruct (print_security_info_flags sec) as (header & -> & Hlen & Hpr).
  eexists. split; [reflexivity|]. split.
  - rewrite length_app, Hlen. reflexivity.
  - rewrite forallb_app, Hpr. reflexivity.
Qed.

Lemma forallb_is_print_calls (trace : list event) :
  forallb is_print trace = true -> network_calls trace = 0.
Proof.
  unfold network_calls, is_print.
  induction trace as [|e trace IH]; [reflexivity|].
  cbn [forallb filter]. destruct (is_http_get e); cbn; [discriminate|].
  exact IH.
Qed.

(** The report of what a valid, well-shaped raw response is transformed
    into. *)
Lemma display_all_info_categories (version : string) (ip : pyval)
  (raw conn tz sec cur fl : dict) :
  exists trace,
    display_all_info now
      (PDict
         [ ("basic",
            PDict (("IP Address", ip) :: ("IP Version", PStr version)
                   :: project basic_fields raw sentinel));
           ("connection", PDict (project connection_fields conn sentinel));
           ("timezone", PDict (project timezone_fields tz sentinel));
           ("security",
            PDict (project security_flags sec (PBool false)
                   ++ [("Threat Level",
                        PStr (threat_label (set_flags sec)))]));
           ("currency", PDict (project currency_fields cur sentinel));
           ("flag", PDict (project flag_fields fl sentinel)) ])
    = (Ok tt, trace) /\
    List.length trace = 46 /\ forallb is_print trace = true.
Proof.
  unfold display_all_info, if_in_then.
  cbn [lookup String.eqb Ascii.eqb Bool.eqb andb].
  destruct (print_basic_info_runs
              (("IP Address", ip) :: ("IP Version", PStr version)
               :: project basic_fields raw sentinel))
    as (tb & -> & Lb & Pb).
  destruct (print_connection_info_runs
              (project connection_fields conn sentinel))
    as (tc & -> & Lc & Pc).
  destruct (print_timezone_info_runs (project timezone_fields tz sentinel))
    as (tt' & -> & Lt & Pt).
  destruct (print_security_info_runs sec) as (ts & -> & Ls & Ps).
  destruct (print_currency_info_runs (project currency_fields cur sentinel))
    as (tcu & -> & Lcu & Pcu).
  destruct (print_flag_info_runs (project flag_fields fl sentinel))
    as (tf & -> & Lf & Pf).
  cbn [io_bind print io_ret print_header fst snd].
  eexists. split; [reflexivity|]. split.
  - cbn [app List.length]. rewrite !length_app. cbn [List.length]. lia.
  - cbn [app forallb is_print is_http_get negb andb].
    rewrite !forallb_app, Pb, Pc, Pt, Ps, Pcu, Pf. reflexivity.
Qed.

End ViewProofs.

Lemma display_all_info_runs {R : Runtime} {C : Colorama}
  (now : string -> string) (raw out : pyval) :
  process_all_data raw = Ok out ->
  exists trace,
    display_all_info now out = (Ok tt, trace) /\
    network_calls trace = 0 /\
    List.length trace = if truthy out then 46 else 5.
Proof.
  intros Hout.
  destruct (process_all_data_result raw out Hout)
    as [[-> _]|(_ & T & d & -> & Hk & Hw)].
  - eexists. repeat split.
  - rewrite T.
    destruct (process_all_data_well_shaped d Hk Hw)
      as (version & conn & tz & sec & cur & fl
          & _ & _ & _ & _ & _ & _ & Hout').
    rewrite Hout' in Hout. injection Hout as <-.
    destruct (display_all_info_categories now version
                (getd d "ip_address" sentinel) d conn tz sec cur fl)
      as (trace & E & L & P).
    exists trace. split; [exact E|]. split; [|exact L].
    apply forallb_is_print_calls. exact P.
Qed.

Lemma refused_none (accepts : string -> bool) (trace : list event) :
  forallb (printable accepts) trace = true -> refused accepts trace = None.
Proof.
  induction trace as [|e trace IH]; [reflexivity|].
  cbn [forallb]. rewrite andb_true_iff. intros [He Ht].
  cbn [refused]. rewrite (IH Ht).
  destruct e as [line|url t]; [|reflexivity].
  cbn in He. rewrite He. reflexivity.
Qed.

Lemma refused_first (accepts : string -> bool)
  (before after : list event) (line : string) :
  forallb (printable accepts) before = true ->
  accepts line = false ->
  refused accepts (before ++ Print line :: after) = Some (before, line).
Proof.
  intros Hb Hl. induction before as [|e before IH].
  - cbn. rewrite Hl. reflexivity.
  - cbn [forallb] in Hb. apply andb_true_iff in Hb. destruct Hb as [He Hb].
    cbn [app refused]. rewrite (IH Hb).
    destruct e as [l|url t]; [|reflexivity].
    cbn in He. rewrite He. reflexivity.
Qed.

(** X13: the report view never fails for a key, a category or a value that
    is missing or of another type: on the transformer's result for any JSON
    value it makes no network call and sets out to print 46 lines for the
    six categories, and 5 lines, the header and the footer, for the empty
    mapping.  On a console that can encode every one of these lines it
    prints them and returns; on any other it stops at the first line that
    the console cannot encode, with the exception that [print] raises
    there. *)
Theorem display_all_info_total {R : Runtime} {C : Colorama}
  (now : string -> string) (accepts : string -> bool)
  (encode_error : string -> exn) (raw out : pyval) :
  process_all_data raw = Ok out ->
  exists trace,
    display_all_info now out = (Ok tt, trace) /\
    network_calls trace = 0 /\
    List.length trace = (if truthy out then 46 else 5) /\
    (forallb (printable accepts) trace = true ->
     on_console accepts encode_error (display_all_info now out)
     = (Ok tt, trace)) /\
    (forall before line after,
       trace = (before ++ Print line :: after)%list ->
       forallb (printable accepts) before = true ->
       accepts line = false ->
       on_console accepts encode_error (display_all_info now out)
       = (Raise (encode_error line), before)).
Proof.
  intros Hout.
  destruct (display_all_info_runs now raw out Hout) as (trace & E & N & L).
  exists trace. repeat (split; [assumption|]).
  unfold on_console. rewrite E. cbn [snd]. split.
  - intros H. rewrite (refused_none accepts trace H). reflexivity.
  - intros before line after -> Hb Hl.
    rewrite (refused_first accepts before after line Hb Hl). reflexivity.
Qed.

(** The report of the sample response, on a console that encodes UTF-8 and
    on a console that encodes ASCII only, which stops after the three lines
    of the header. *)
Lemma display_all_info_total_witness :
  exists trace,
    display_all_info (R := example_runtime) (C := example_colorama)
      example_now sample_output = (Ok tt, trace) /\
    List.length trace = 46 /\
    on_console (fun _ => true) (fun _ => ValueError "")
      (display_all_info (R := example_runtime) (C := example_colorama)
         example_now sample_output)
    = (Ok tt, trace) /\
    exists before,
      on_console ascii_only (fun _ => ValueError "")
        (display_all_info (R := example_runtime) (C := example_colorama)
           example_now sample_output)
      = (Raise (ValueError ""), before) /\
      List.length before = 3.
Proof.
  destruct (@display_all_info_total example_runtime example_colorama
              example_now (fun _ => true) (fun _ => ValueError "")
              (PDict sample_response) sample_output eq_refl)
    as (trace & E & _ & L & Hok & _).
  exists trace. split; [exact E|]. split; [exact L|].
  split.
  - apply Hok. clear. induction trace as [|[line|url t] trace IH];
      [reflexivity | exact IH | exact IH].
  - eexists. split; vm_compute; reflexivity.
Defined.

(** X14: the security view agrees with the flags of the raw response: for
    the security category that the transformer makes of a security group,
    each flag line says YES in red when the flag is set and NO in green
    when it is not, and the threat level is shown green when no flag is
    set, yellow when one is and red when two or more are. *)
Theorem security_view_matches_flags {R : Runtime} {C : Colorama}
  (raw sec : dict) :
  getd raw "security" (PDict []) = PDict sec ->
  exists out header,
    extract_security_info (PDict raw) = Ok out /\
    List.length header = 2 /\
    print_security_info out =
    (Ok tt,
     header ++
     [ Print (key_value_line "VPN Detected"
                (yes_no (flag_set sec "is_vpn"))
                (alarm (flag_set sec "is_vpn") ++ Style_BRIGHT));
       Print (key_value_line "Proxy Detected"
                (yes_no (flag_set sec "is_proxy"))
                (alarm (flag_set sec "is_proxy") ++ Style_BRIGHT));
       Print (key_value_line "Tor Detected"
                (yes_no (flag_set sec "is_tor"))
                (alarm (flag_set sec "is_tor") ++ Style_BRIGHT));
       Print (key_value_line "Relay Detected"
                (yes_no (flag_set sec "is_relay"))
                (alarm (flag_set sec "is_relay") ++ Style_BRIGHT));
       Print (key_value_line "Overall Threat Level"
                (PStr (threat_label (set_flags sec)))
                (threat_color (flag_count sec) ++ Style_BRIGHT)) ])%list.
Proof.
  intros Hs.
  destruct (print_security_info_flags sec) as (header & E & L & _).
  eexists. exists header.
  split; [exact (extract_security_info_dict raw sec Hs)|].
  split; [exact L | exact E].
Qed.

(** The security view of a response that sets the VPN flag alone. *)
Lemma security_view_matches_flags_witness :
  exists out header,
    extract_security_info
      (PDict [ ("ip_address", PStr "8.8.8.8");
               ("security", PDict [("is_vpn", PBool true)]) ]) = Ok out /\
    List.length header = 2 /\
    print_security_info (R := example_runtime) (C := example_colorama) out =
    (Ok tt,
     header ++
     [ Print "[90mVPN Detected............. [31m[1mYES ⚠[0m";
       Print "[90mProxy Detected........... [32m[1mNO ✓[0m";
       Print "[90mTor Detected............. [32m[1mNO ✓[0m";
       Print "[90mRelay Detected........... [32m[1mNO ✓[0m";
       Print "[90mOverall Threat Level..... [33m[1mLow (VPN detected)[0m"
     ])%list.
Proof.
  apply (@security_view_matches_flags example_runtime example_colorama
           [ ("ip_address", PStr "8.8.8.8");
             ("security", PDict [("is_vpn", PBool true)]) ]
           [("is_vpn", PBool true)]).
  reflexivity.
Defined.

(** X15: a lookup of the interactive front end and the stored result.  A
    failed request and an empty body leave the stored result as it was; a
    body without ip_address replaces it by the empty mapping, after which
    there is no data to show; a body with ip_address and the shape the
    extraction relies on is transformed and stored, so that there is data
    to show; a body with
    ip_address and any other shape makes the transformer raise, and the
    method lets the exception out. *)
Theorem current_lookup_session {R : Runtime} {C : Colorama}
  (now : string -> string) (upper : string -> string)
  (tabulate : list (list string) -> list string -> string -> string)
  (network : string -> Z -> res response)
  (self : IPInfoApp.app) (r : response) :
  network (current_url (IPInfoApp.api_client self))
    (timeout (IPInfoApp.api_client self)) = Ok r ->
  (status_code r <> 200%Z ->
   exists trace,
     IPInfoApp.get_current_ip_info now network self = (Ok self, trace)) /\
  (forall raw, status_code r = 200%Z -> json r = Ok (PDict raw) ->
   (raw = [] ->
    exists trace,
      IPInfoApp.get_current_ip_info now network self = (Ok self, trace)) /\
   (raw <> [] -> has_key "ip_address" raw = false ->
    exists trace,
      IPInfoApp.get_current_ip_info now network self
      = (Ok (IPInfoApp.set_last_processed_data self (PDict [])), trace) /\
      IPInfoApp.no_data (IPInfoApp.set_last_processed_data self (PDict []))
      = true /\
      exists warning,
        IPInfoApp.display_table_format upper tabulate
          (IPInfoApp.set_last_processed_data self (PDict []))
        = (Ok tt, [Print warning])) /\
   (has_key "ip_address" raw = true -> well_shaped raw = true ->
    exists data trace,
      process_all_data (PDict raw) = Ok data /\
      IPInfoApp.get_current_ip_info now network self
      = (Ok (IPInfoApp.set_last_processed_data self data), trace) /\
      IPInfoApp.no_data (IPInfoApp.set_last_processed_data self data)
      = false) /\
   (has_key "ip_address" raw = true -> well_shaped raw = false ->
    exists e trace,
      process_all_data (PDict raw) = Raise e /\
      IPInfoApp.get_current_ip_info now network self = (Raise e, trace))).
Proof.
  intros Hnet. unfold IPInfoApp.get_current_ip_info.
  cbn [io_bind print].
  rewrite (get_current_ip_info_response network _ r Hnet).
  split.
  - intros Hst. apply Z.eqb_neq in Hst. rewrite Hst.
    eexists. reflexivity.
  - intros raw Hst Hjson. rewrite Hst, Hjson.
    cbn [Z.eqb Pos.eqb try_except io_bind].
    split; [|split; [|split]].
    + intros ->. eexists. reflexivity.
    + intros Hne Hk.
      destruct raw as [|kv raw]; [contradiction|]. cbn [truthy].
      unfold lift. rewrite (process_all_data_invalid _ Hk).
      eexists. split; [reflexivity|]. split; [reflexivity|].
      eexists. reflexivity.
    + intros Hk Hw.
      destruct (process_all_data_six raw Hk Hw) as (data & Hd & Hsix).
      destruct (display_all_info_runs now (PDict raw) data Hd)
        as (shown & Hshown & _ & _).
      assert (T : truthy data = true)
        by (destruct Hsix as (? & ? & ? & ? & ? & ? & -> & _); reflexivity).
      exists data.
      destruct raw as [|kv raw]; [discriminate Hk|]. cbn [truthy].
      unfold lift. rewrite Hd. cbn [io_bind]. rewrite T, Hshown.
      eexists. split; [reflexivity|]. split; [reflexivity|].
      unfold IPInfoApp.no_data. cbn. rewrite T. reflexivity.
    + intros Hk Hw.
      destruct (process_all_data_ill_shaped raw Hk Hw) as [e He].
      exists e.
      destruct raw as [|kv raw]; [discriminate Hk|]. cbn [truthy].
      unfold lift. rewrite He. eexists. split; reflexivity.
Qed.

(** After the sample response, the upstream answers with a body that has
    no address: the stored result is lost. *)
Lemma current_lookup_session_witness :
  exists trace,
    IPInfoApp.get_current_ip_info (R := example_runtime)
      (C := example_colorama) example_now
      (answers {| status_code := 200;
                  json := Ok (PDict [("city", PStr "Test")]) |})
      sample_app
    = (Ok (IPInfoApp.set_last_processed_data sample_app (PDict [])), trace) /\
    IPInfoApp.no_data (IPInfoApp.set_last_processed_data sample_app (PDict []))
    = true /\
    exists warning,
      IPInfoApp.display_table_format (R := example_runtime)
        (C := example_colorama) example_upper example_tabulate
        (IPInfoApp.set_last_processed_data sample_app (PDict []))
      = (Ok tt, [Print warning]).
Proof.
  apply (proj1 (proj2 (proj2
           (@current_lookup_session example_runtime example_colorama
              example_now example_upper example_tabulate
              (answers {| status_code := 200;
                          json := Ok (PDict [("city", PStr "Test")]) |})
              sample_app
              {| status_code := 200;
                 json := Ok (PDict [("city", PStr "Test")]) |}
              eq_refl)
           [("city", PStr "Test")] eq_refl eq_refl)));
    [discriminate | reflexivity].
Defined.

(** X16: the basic view colours the address by its version: green for an
    address the classifier calls IPv4, cyan for any other, IPv6 and
    Unknown alike. *)
Theorem address_colour {R : Runtime} {C : Colorama} (raw : dict) (s : string) :
  lookup "ip_address" raw = Some (PStr s) ->
  exists out header rest,
    extract_basic_info (PDict raw) = Ok out /\
    List.length header = 2 /\
    print_basic_info out =
    (Ok tt,
     header ++
     Print (key_value_line "IP Address" (PStr s)
              ((if in_dec ascii_dec ":"%char (chars s) then Fore_CYAN
                else if in_dec ascii_dec "."%char (chars s) then Fore_GREEN
                else Fore_CYAN) ++ Style_BRIGHT))
     :: rest)%list.
Proof.
  intros Hip.
  assert (Hv : _determine_ip_version (getd raw "ip_address" (PStr "")) =
               Ok (if in_dec ascii_dec ":"%char (chars s) then "IPv6"
                   else if in_dec ascii_dec "."%char (chars s) then "IPv4"
                   else "Unknown")).
  { unfold getd. rewrite Hip.
    unfold _determine_ip_version. cbn [contains bind].
    destruct (in_dec ascii_dec ":"%char (chars s)) as [Hc|Hc].
    - apply str_contains_char in Hc. rewrite Hc. reflexivity.
    - apply str_contains_char_false in Hc. rewrite Hc.
      destruct (in_dec ascii_dec "."%char (chars s)) as [Hd|Hd].
      + apply str_contains_char in Hd. rewrite Hd. reflexivity.
      + apply str_contains_char_false in Hd. rewrite Hd. reflexivity. }
  assert (Hg : getd raw "ip_address" sentinel = PStr s)
    by (unfold getd; rewrite Hip; reflexivity).
  destruct (in_dec ascii_dec ":"%char (chars s));
    [|destruct (in_dec ascii_dec "."%char (chars s))];
    rewrite (extract_basic_info_dict raw _ Hv), Hg;
    eexists;
    exists [ Print (nl ++ Fore_YELLOW ++ Style_BRIGHT ++ "▶ "
                    ++ "BASIC INFORMATION" ++ Style_RESET_ALL);
             Print (Fore_YELLOW ++ repeat_str "-" 60 ++ Style_RESET_ALL) ];
    eexists; (split; [reflexivity|]); (split; [reflexivity|]);
    unfold print_basic_info, lift; rewrite !get_dict;
    unfold getd;
    cbn [lookup String.eqb Ascii.eqb Bool.eqb andb];
    cbn [io_bind print io_ret print_section_header print_key_value
         fst snd app];
    unfold key_value_line; reflexivity.
Qed.

(** The basic view of a response that holds the address 8.8.8.8, printed
    green. *)
Lemma address_colour_witness :
  exists out header rest,
    extract_basic_info (R := example_runtime)
      (PDict [("ip_address", PStr "8.8.8.8")]) = Ok out /\
    List.length header = 2 /\
    print_basic_info (R := example_runtime) (C := example_colorama) out =
    (Ok tt,
     header ++
     Print "[90mIP Address............... [32m[1m8.8.8.8[0m" :: rest)%list.
Proof.
  apply (@address_colour example_runtime example_colorama
           [("ip_address", PStr "8.8.8.8")] "8.8.8.8").
  reflexivity.
Defined.
